(** * Outgoing payments: persisted schema, quote arithmetic, lifecycle and
      the payment-pointer admin route

    The development follows the two source files of the repository:

    - [packages/backend/migrations/20211026122545_create_outgoing_payments_table.js]
      (modules [Knex] and [Migration]);
    - [packages/frontend/app/routes/payment-pointers.$paymentPointerId.tsx]
      (module [Route]).

    The quote engine and the lifecycle state machine have no source file
    here; modules [QuoteEngine] and [Lifecycle] are written from the
    design document and say so.  Modules [Store] and [Page] cover what the
    table enforces once it exists and the component of the route. *)

From Stdlib Require Import ZArith QArith Qround DecimalString.
From stdpp Require Import base gmap strings list fin_maps.

Local Open Scope string_scope.
Local Open Scope Z_scope.

(** ** Results of fallible operations *)

Inductive result (E A : Type) : Type :=
| Ok (a : A)
| Err (e : E).
Arguments Ok {E A} a.
Arguments Err {E A} e.

(* ===================================================================== *)
(** ** The schema builder the migration is written against *)
(* ===================================================================== *)

Module Knex.

(** Column builders offered by the schema builder.  The migration uses
    [uuid], [string], [integer], [bigInteger] and [timestamp]; the
    approximate numeric ones are listed so that their absence from a
    table is a property and not an artefact of the type. *)
Inductive ColumnType : Type :=
| TUuid | TString | TText | TInteger | TBigInteger
| TFloat | TDouble | TDecimal | TBoolean | TTimestamp.

#[global] Instance ColumnType_eq_dec : EqDecision ColumnType.
Proof. solve_decision. Defined.

(** Floating-point (inexact) column kinds. *)
Definition is_floating (t : ColumnType) : bool :=
  match t with
  | TFloat | TDouble => true
  | _ => false
  end.

(** Exact integer column kinds. *)
Definition is_integer (t : ColumnType) : bool :=
  match t with
  | TInteger | TBigInteger => true
  | _ => false
  end.

(** Values a cell can hold. *)
Inductive SqlValue : Type :=
| VNull
| VInt (z : Z)
| VStr (s : string)
| VUuid (u : string)
| VTime (t : Z).

#[global] Instance SqlValue_eq_dec : EqDecision SqlValue.
Proof. solve_decision. Defined.

(** Argument of [defaultTo]: a literal, or [knex.fn.now()]. *)
Inductive DefaultTo : Type :=
| DefaultValue (v : SqlValue)
| DefaultNow.

(** What [table.<type>(name)] returns and the chained modifiers update. *)
Record ColumnBuilder : Type := mkColumn {
  colName : string;
  colType : ColumnType;
  colNullable : bool;
  colPrimary : bool;
  colIndexed : bool;
  colDefault : option DefaultTo
}.

Definition column (t : ColumnType) (name : string) : ColumnBuilder :=
  {| colName := name; colType := t; colNullable := true;
     colPrimary := false; colIndexed := false; colDefault := None |}.

Definition uuid := column TUuid.
Definition string_ := column TString.
Definition integer := column TInteger.
Definition bigInteger := column TBigInteger.
Definition timestamp := column TTimestamp.

Definition notNullable (c : ColumnBuilder) : ColumnBuilder :=
  {| colName := colName c; colType := colType c; colNullable := false;
     colPrimary := colPrimary c; colIndexed := colIndexed c;
     colDefault := colDefault c |}.

Definition nullable (c : ColumnBuilder) : ColumnBuilder :=
  {| colName := colName c; colType := colType c; colNullable := true;
     colPrimary := colPrimary c; colIndexed := colIndexed c;
     colDefault := colDefault c |}.

Definition primary (c : ColumnBuilder) : ColumnBuilder :=
  {| colName := colName c; colType := colType c; colNullable := colNullable c;
     colPrimary := true; colIndexed := colIndexed c;
     colDefault := colDefault c |}.

Definition index (c : ColumnBuilder) : ColumnBuilder :=
  {| colName := colName c; colType := colType c; colNullable := colNullable c;
     colPrimary := colPrimary c; colIndexed := true;
     colDefault := colDefault c |}.

Definition defaultTo (d : DefaultTo) (c : ColumnBuilder) : ColumnBuilder :=
  {| colName := colName c; colType := colType c; colNullable := colNullable c;
     colPrimary := colPrimary c; colIndexed := colIndexed c;
     colDefault := Some d |}.

(** [table.foreign(col).references('tbl.col')] *)
Record ForeignKey : Type := mkForeign {
  fkColumn : string;
  fkInTable : string;
  fkReferences : string
}.

(** ['accounts.id'.split('.')]: the text before and after the first dot. *)
Fixpoint split_dot (s : string) : option (string * string) :=
  match s with
  | EmptyString => None
  | String c rest =>
      if Ascii.eqb c (Ascii.ascii_of_nat 46) then Some (EmptyString, rest)
      else match split_dot rest with
           | Some (a, b) => Some (String c a, b)
           | None => None
           end
  end.

Definition references (target : string) (col : string) : ForeignKey :=
  match split_dot target with
  | Some (t, c) => {| fkColumn := col; fkInTable := t; fkReferences := c |}
  | None => {| fkColumn := col; fkInTable := EmptyString; fkReferences := target |}
  end.

(** One statement of the [function (table) { ... }] callback. *)
Inductive Statement : Type :=
| AddColumn (c : ColumnBuilder)
| AddForeign (f : ForeignKey)
| AddIndex (cols : list string).

(** The table a callback describes. *)
Record Table : Type := mkTable {
  columns : list ColumnBuilder;
  foreignKeys : list ForeignKey;
  indexes : list (list string)
}.

Definition emptyTable : Table :=
  {| columns := []; foreignKeys := []; indexes := [] |}.

Definition addStatement (t : Table) (s : Statement) : Table :=
  match s with
  | AddColumn c =>
      {| columns := columns t ++ [c];
         foreignKeys := foreignKeys t;
         indexes := if colIndexed c then indexes t ++ [[colName c]]
                    else indexes t |}
  | AddForeign f =>
      {| columns := columns t;
         foreignKeys := foreignKeys t ++ [f];
         indexes := indexes t |}
  | AddIndex cols =>
      {| columns := columns t;
         foreignKeys := foreignKeys t;
         indexes := indexes t ++ [cols] |}
  end.

Definition buildTable (callback : list Statement) : Table :=
  fold_left addStatement callback emptyTable.

(** *** The store: tables with their rows *)

(** A row to insert names the columns it provides. *)
Record TableState : Type := mkTableState {
  tdef : Table;
  trows : list (gmap string SqlValue)
}.

Inductive SchemaError : Type :=
| TableAlreadyExists (name : string)
| NoSuchTable (name : string)
| UnknownColumn (name : string)
| TypeMismatch (name : string)
| NotNullViolation (name : string)
| DuplicateKey
| ForeignKeyViolation (name : string).

(** [knex.schema.createTable(name, callback)]: refuses an existing name. *)
Definition createTable (name : string) (callback : list Statement)
    (db : gmap string TableState) : result SchemaError (gmap string TableState) :=
  match db !! name with
  | Some _ => Err (TableAlreadyExists name)
  | None => Ok (<[name := {| tdef := buildTable callback; trows := [] |}]> db)
  end.


(** *** Lookups on a table definition *)

Definition findColumn (t : Table) (name : string) : option ColumnBuilder :=
  find (fun c => bool_decide (colName c = name)) (columns t).

Definition hasIndex (t : Table) (cols : list string) : bool :=
  bool_decide (cols ∈ indexes t).

Definition columnNames (t : Table) : list string := map colName (columns t).

(** A column refuses NULL when declared [notNullable] or [primary]. *)
Definition requiresValue (c : ColumnBuilder) : bool :=
  negb (colNullable c) || colPrimary c.

(** *** Inserting a row *)

Definition fitsType (t : ColumnType) (v : SqlValue) : bool :=
  match v, t with
  | VNull, _ => true
  | VInt z, TInteger => (- 2 ^ 31 <=? z) && (z <? 2 ^ 31)
  | VInt z, TBigInteger => (- 2 ^ 63 <=? z) && (z <? 2 ^ 63)
  | VStr _, (TString | TText) => true
  | VUuid _, TUuid => true
  | VTime _, TTimestamp => true
  | _, _ => false
  end.

(** The value stored for a column: the provided one, else the default,
    else NULL. *)
Definition cellValue (now : Z) (row : gmap string SqlValue)
    (c : ColumnBuilder) : SqlValue :=
  match row !! colName c with
  | Some v => v
  | None =>
      match colDefault c with
      | Some (DefaultValue v) => v
      | Some DefaultNow => VTime now
      | None => VNull
      end
  end.

Definition completeRow (now : Z) (t : Table) (row : gmap string SqlValue)
    : gmap string SqlValue :=
  fold_left (fun m c => <[colName c := cellValue now row c]> m) (columns t) ∅.

Definition firstUnknown (t : Table) (row : gmap string SqlValue) : option string :=
  find (fun k => bool_decide (k ∉ columnNames t)) (map fst (map_to_list row)).

Definition cellOf (r : gmap string SqlValue) (k : string) : SqlValue :=
  default VNull (r !! k).

Definition firstIllTyped (t : Table) (r : gmap string SqlValue) : option ColumnBuilder :=
  find (fun c => negb (fitsType (colType c) (cellOf r (colName c)))) (columns t).

Definition firstNullViolation (t : Table) (r : gmap string SqlValue) : option ColumnBuilder :=
  find (fun c => requiresValue c && bool_decide (cellOf r (colName c) = VNull))
       (columns t).

Definition primaryKeyOf (t : Table) (r : gmap string SqlValue) : list SqlValue :=
  map (fun c => cellOf r (colName c)) (filter (fun c => colPrimary c = true) (columns t)).

Definition keyTaken (t : Table) (rows : list (gmap string SqlValue))
    (r : gmap string SqlValue) : bool :=
  match primaryKeyOf t r with
  | [] => false
  | k => existsb (fun r' => bool_decide (primaryKeyOf t r' = k)) rows
  end.

Definition foreignKeyHolds (db : gmap string TableState)
    (r : gmap string SqlValue) (f : ForeignKey) : bool :=
  match cellOf r (fkColumn f) with
  | VNull => true
  | v => match db !! fkInTable f with
         | Some ts => existsb (fun r' => bool_decide (cellOf r' (fkReferences f) = v))
                              (trows ts)
         | None => false
         end
  end.

Definition firstBrokenForeign (db : gmap string TableState) (t : Table)
    (r : gmap string SqlValue) : option ForeignKey :=
  find (fun f => negb (foreignKeyHolds db r f)) (foreignKeys t).

(** [knex(name).insert(row)] at time [now], with the constraints the
    column modifiers ask the store to enforce. *)
Definition insert (now : Z) (name : string) (row : gmap string SqlValue)
    (db : gmap string TableState) : result SchemaError (gmap string TableState) :=
  match db !! name with
  | None => Err (NoSuchTable name)
  | Some ts =>
      let t := tdef ts in
      match firstUnknown t row with
      | Some k => Err (UnknownColumn k)
      | None =>
          let r := completeRow now t row in
          match firstIllTyped t r with
          | Some c => Err (TypeMismatch (colName c))
          | None =>
              match firstNullViolation t r with
              | Some c => Err (NotNullViolation (colName c))
              | None =>
                  if keyTaken t (trows ts) r then Err DuplicateKey
                  else match firstBrokenForeign db t r with
                       | Some f => Err (ForeignKeyViolation (fkColumn f))
                       | None =>
                           Ok (<[name := {| tdef := t; trows := trows ts ++ [r] |}]> db)
                       end
              end
          end
      end
  end.

End Knex.

(* ===================================================================== *)
(** ** The migration *)
(* ===================================================================== *)

Module Migration.
Import Knex.

Notation "c '.>' f" := (f c) (at level 45, left associativity, only parsing).

(** The body of the callback given to [createTable], statement by
    statement. *)
Definition outgoingPaymentsCallback : list Statement :=
  [ AddColumn (uuid "id" .> notNullable .> primary);

    AddColumn (string_ "state" .> notNullable .> index);
    AddColumn (string_ "error" .> nullable);
    AddColumn (integer "stateAttempts" .> notNullable .> defaultTo (DefaultValue (VInt 0)));
    AddColumn (string_ "description" .> nullable);
    AddColumn (string_ "externalRef" .> nullable);

    AddColumn (string_ "receivingAccount" .> nullable);
    AddColumn (string_ "receivingPayment" .> nullable);
    AddColumn (bigInteger "sendAmountValue" .> nullable);
    AddColumn (bigInteger "receiveAmountValue" .> nullable);
    AddColumn (string_ "receiveAmountAssetCode" .> nullable);
    AddColumn (integer "receiveAmountAssetScale" .> nullable);

    AddColumn (timestamp "quoteTimestamp" .> nullable);
    AddColumn (string_ "quoteTargetType" .> nullable);
    AddColumn (bigInteger "quoteMaxPacketAmount" .> nullable);

    AddColumn (bigInteger "quoteMinExchangeRateNumerator" .> nullable);
    AddColumn (bigInteger "quoteMinExchangeRateDenominator" .> nullable);
    AddColumn (bigInteger "quoteLowExchangeRateEstimateNumerator" .> nullable);
    AddColumn (bigInteger "quoteLowExchangeRateEstimateDenominator" .> nullable);
    AddColumn (bigInteger "quoteHighExchangeRateEstimateNumerator" .> nullable);
    AddColumn (bigInteger "quoteHighExchangeRateEstimateDenominator" .> nullable);

    AddColumn (uuid "accountId" .> notNullable);
    AddForeign ("accountId" .> references "accounts.id");

    AddColumn (uuid "assetId" .> notNullable);
    AddForeign ("assetId" .> references "assets.id");

    AddColumn (timestamp "createdAt" .> defaultTo DefaultNow);
    AddColumn (timestamp "updatedAt" .> defaultTo DefaultNow);

    AddIndex ["accountId"; "createdAt"; "id"] ].

Definition exports_up (db : gmap string TableState)
    : result SchemaError (gmap string TableState) :=
  createTable "outgoingPayments" outgoingPaymentsCallback db.


(** The table definition the migration installs. *)
Definition outgoingPayments : Table := buildTable outgoingPaymentsCallback.

(** Column-level readings of a table definition. *)
Definition hasColumn (t : Table) (name : string) : bool :=
  bool_decide (name ∈ columnNames t).

Definition columnHasType (t : Table) (name : string) (ty : ColumnType) : bool :=
  match findColumn t name with
  | Some c => bool_decide (colType c = ty)
  | None => false
  end.

Definition isIntegerColumn (t : Table) (name : string) : bool :=
  match findColumn t name with
  | Some c => is_integer (colType c)
  | None => false
  end.

Definition isNullableColumn (t : Table) (name : string) : bool :=
  match findColumn t name with
  | Some c => negb (requiresValue c)
  | None => false
  end.

Definition isRequiredColumn (t : Table) (name : string) : bool :=
  match findColumn t name with
  | Some c => requiresValue c
  | None => false
  end.


(** [name.includes(part)] *)
Definition mentions (part name : string) : bool :=
  match String.index 0 part name with
  | Some _ => true
  | None => false
  end.

(** The exchange rates a payment row persists, by column prefix. *)
Definition persistedRates : list string :=
  [ "quoteMinExchangeRate"; "quoteLowExchangeRateEstimate"; "quoteHighExchangeRateEstimate" ].


(** The three parts of a persisted Amount named [prefix]. *)
Definition amountColumns (prefix : string) : list string :=
  [ prefix +:+ "Value"; prefix +:+ "AssetCode"; prefix +:+ "AssetScale" ].

(** The row of a payment that has just been created in state [st]. *)
Definition pendingRow (pid st account asset : string) : gmap string SqlValue :=
  <["id" := VUuid pid]>
    (<["state" := VStr st]>
      (<["accountId" := VUuid account]>
        (<["assetId" := VUuid asset]> ∅))).


End Migration.

(* ===================================================================== *)
(** ** The payment-pointer detail route *)
(* ===================================================================== *)

Module Route.

#[local] Set Warnings "-register-all".

(** JavaScript values as they travel through the loader. *)
Inductive Json : Type :=
| JNull
| JUndefined
| JBool (b : bool)
| JNum (z : Z)
| JStr (s : string)
| JArr (items : list Json)
| JObj (fields : gmap string Json).

(** [obj.key]: a missing property reads as [undefined]. *)
Definition getProp (o : gmap string Json) (k : string) : Json :=
  default JUndefined (o !! k).

(** The response [json(data, init)] builds. *)
Record Response (B : Type) : Type := mkResponse {
  body : B;
  status : Z;
  statusText : string
}.
Arguments mkResponse {B} body status statusText.
Arguments body {B} r.
Arguments status {B} r.
Arguments statusText {B} r.

Definition json {B : Type} (data : B) (st : Z) (text : string) : Response B :=
  {| body := data; status := st; statusText := text |}.

(** A form field value. *)
Inductive FormDataEntryValue : Type :=
| EntryString (s : string)
| EntryFile (name : string).

(** The request as the action reads it: the headers, by lower-case name,
    and the entries of the submitted form. *)
Record Request : Type := mkRequest {
  headers : gmap string string;
  formData : list (string * FormDataEntryValue)
}.

(** [Object.fromEntries]: a later entry overwrites an earlier one. *)
Definition fromEntries {V : Type} (entries : list (string * V)) : gmap string V :=
  fold_left (fun o e => <[fst e := snd e]> o) entries ∅.

(** The answer of the update mutation; [success] and [message] are read
    through [?.]. *)
Record MutationResponse : Type := mkMutationResponse {
  success : bool;
  message : option string
}.

(** The flash message handed to [setMessageAndRedirect]. *)
Record Message : Type := mkMessage {
  content : string;
  type : string
}.

(** [actionResponse] of the action. *)
Record ActionErrors : Type := mkActionErrors {
  fieldErrors : gmap string (list string);
  errorMessage : list string
}.

Record ActionResponse : Type := mkActionResponse {
  errors : ActionErrors
}.

(** What the route imports and does not define: the zod validators, the
    date formatting of the host, and the types the API layer and the
    session storage exchange. *)
Class Collaborators : Type := {
  Session : Type;
  Redirect : Type;
  UpdateInput : Type;
  ZodError : Type;
  (** [z.string().uuid()] on a string *)
  isUuid : string -> bool;
  (** [new Date(v).toLocaleString()] *)
  toLocaleString : Json -> string;
  (** [updatePaymentPointerSchema.safeParse] *)
  updatePaymentPointerSchema : gmap string FormDataEntryValue -> result ZodError UpdateInput;
  (** [error.flatten().fieldErrors] *)
  flattenFieldErrors : ZodError -> gmap string (list string)
}.

Section Handlers.
Context `{Collaborators}.

(** The awaited calls into other modules. *)
Inductive Api : Type -> Type :=
| getPaymentPointer (id : string) : Api (option (gmap string Json))
| updatePaymentPointer (args : UpdateInput) : Api (option MutationResponse)
| getSession (cookie : option string) : Api Session
| setMessageAndRedirect (session : Session) (msg : Message) (location : string)
    : Api Redirect.

(** An async handler: it returns, throws a response, or awaits a call
    and continues with its answer. *)
Inductive Prog (A : Type) : Type :=
| Return (a : A)
| Throw (r : Response Json)
| Await {X : Type} (e : Api X) (k : X -> Prog A).
Arguments Return {A} a.
Arguments Throw {A} r.
Arguments Await {A X} e k.

(** [z.string().uuid().safeParse(v)]: [undefined] is not a string. *)
Definition safeParseUuid (v : option string) : option string :=
  match v with
  | Some s => if isUuid s then Some s else None
  | None => None
  end.

Definition loader (params : gmap string string) : Prog (Response Json) :=
  let paymentPointerId := params !! "paymentPointerId" in
  match safeParseUuid paymentPointerId with
  | None => Throw (json JNull 400 "Invalid payment pointer ID.")
  | Some data =>
      Await (getPaymentPointer data) (fun paymentPointer =>
        match paymentPointer with
        | None => Throw (json JNull 404 "Payment pointer not found.")
        | Some pp =>
            Return (json
              (JObj {[ "paymentPointer" :=
                 JObj (<["createdAt" :=
                          JStr (toLocaleString (getProp pp "createdAt"))]> pp) ]})
              200 "")
        end)
  end.

(** What the action hands back: a JSON response or the redirect made
    by [setMessageAndRedirect]. *)
Inductive ActionReturn : Type :=
| JsonResponse (r : Response ActionResponse)
| Redirected (r : Redirect).

(** [!response?.success] *)
Definition notSuccess (response : option MutationResponse) : bool :=
  match response with
  | Some r => negb (success r)
  | None => true
  end.

(** [response?.message ?? fallback] *)
Definition messageOr (response : option MutationResponse) (fallback : string) : string :=
  match response with
  | Some r => default fallback (message r)
  | None => fallback
  end.

Definition action (request : Request) : Prog ActionReturn :=
  let formData := fromEntries (formData request) in
  match updatePaymentPointerSchema formData with
  | Err error =>
      Return (JsonResponse (json
        {| errors := {| fieldErrors := flattenFieldErrors error;
                        errorMessage := [] |} |} 400 ""))
  | Ok data =>
      Await (updatePaymentPointer data) (fun response =>
        if notSuccess response then
          Return (JsonResponse (json
            {| errors := {| fieldErrors := ∅;
                            errorMessage :=
                              [messageOr response
                                 "Could not update the payment pointer. Please try again!"] |} |}
            400 ""))
        else
          Await (getSession (headers request !! "cookie")) (fun session =>
            Await (setMessageAndRedirect session
                     {| content := "Payment pointer was updated";
                        type := "success" |} ".")
                  (fun r => Return (Redirected r))))
  end.

(** *** Running a handler against its collaborators *)

Inductive Call : Type :=
| CallOf {X : Type} (e : Api X).

Inductive Completion (A : Type) : Type :=
| Returned (a : A)
| Thrown (r : Response Json).
Arguments Returned {A} a.
Arguments Thrown {A} r.

(** The rest of the system: a state [W] and the answer it gives to
    each call.  Every awaited call is taken to resolve. *)
Definition Backend (W : Type) : Type := forall X : Type, Api X -> W -> X * W.

Fixpoint run {W A : Type} (h : Backend W) (p : Prog A) (w : W)
    : Completion A * W * list Call :=
  match p with
  | Return a => (Returned a, w, [])
  | Throw r => (Thrown r, w, [])
  | Await e k =>
      let '(x, w1) := h _ e w in
      let '(o, w2, calls) := run h (k x) w1 in
      (o, w2, CallOf e :: calls)
  end.

Definition outcomeOf {W A : Type} (h : Backend W) (p : Prog A) (w : W) : Completion A :=
  fst (fst (run h p w)).
Definition callsOf {W A : Type} (h : Backend W) (p : Prog A) (w : W) : list Call :=
  snd (run h p w).

Definition isUpdatePaymentPointer (c : Call) : bool :=
  match c with
  | CallOf (updatePaymentPointer _) => true
  | _ => false
  end.

End Handlers.

Arguments Return {_ A} a.
Arguments Throw {_ A} r.
Arguments Await {_ A X} e k.
Arguments Returned {A} a.
Arguments Thrown {A} r.

End Route.


(* ===================================================================== *)
(** ** Money and rate types of the design document *)
(* ===================================================================== *)

Module DataModel.

(** Modelled from the spec: the Amount of section 3, no source file
    declares it.  The value is an unsigned machine integer there; it is
    carried as an integer here. *)
Record Amount : Type := mkAmount {
  value : Z;
  assetCode : string;
  assetScale : Z
}.

(** Modelled from the spec: the Rate of section 3, an exact rational with
    a denominator above zero. *)
Record Rate : Type := mkRate {
  numerator : Z;
  denominator : positive
}.

(** Modelled from the spec: the rational a Rate stands for. *)
Definition rateQ (r : Rate) : Q := numerator r # denominator r.

(** Modelled from the spec: section 3 compares rates by
    cross-multiplication; [a < b]. *)
Definition rate_ltb (a b : Rate) : bool :=
  numerator a * Z.pos (denominator b) <? numerator b * Z.pos (denominator a).

(** Modelled from the spec: the two target types of a quote. *)
Inductive TargetType : Type :=
| FixedSend
| FixedDelivery.

(** Modelled from the spec: the Quote record of section 3. *)
Record QuoteRecord : Type := mkQuote {
  quoteCreatedAt : Z;
  targetType : TargetType;
  maxPacketAmount : Amount;
  minExchangeRate : Rate;
  estimatedRateLow : Rate;
  estimatedRateHigh : Rate
}.

End DataModel.

(* ===================================================================== *)
(** ** Quote engine (section 4.1 of the design document) *)
(* ===================================================================== *)

Module QuoteEngine.
Import DataModel.

(** Modelled from the spec: an asset as the engine's contract takes it,
    a code and a scale. *)
Record Asset : Type := mkAsset {
  code : string;
  scale : Z
}.

(** Modelled from the spec: the [target: {type, amount}] argument of the
    contract. *)
Record Target : Type := mkTarget {
  type : TargetType;
  amount : Z
}.

(** Modelled from the spec: the QuoteError taxonomy of section 7. *)
Inductive QuoteError : Type :=
| InvalidRateBounds
| ZeroRate
| PacketTooSmall
| AmountTooSmall.

(** Modelled from the spec: what section 2 says the engine computes, as far
    as the amounts depend on it: the guaranteed rate, the packet ceiling
    and both amounts. *)
Record Quotation : Type := mkQuotation {
  quotedType : TargetType;
  quotedMaxPacketAmount : Amount;
  quotedMinExchangeRate : Rate;
  sendAmount : Amount;
  receiveAmount : Amount
}.

(** Modelled from the spec: the slippage tolerance is a fraction taken off
    the probed low rate, [low * (1 - slippage)]; the product of two exact
    rationals needs no rounding. *)
Definition applySlippage (slippage low : Rate) : Rate :=
  {| numerator := numerator low * (Z.pos (denominator slippage) - numerator slippage);
     denominator := denominator low * denominator slippage |}.

(** Modelled from the spec: [receiveAmount = floor(sendAmount * minExchangeRate)]. *)
Definition receiveFor (sendValue : Z) (minRate : Rate) : Z :=
  Qfloor (inject_Z sendValue * rateQ minRate).

(** Modelled from the spec: [sendAmount = ceil(deliveryAmount / minExchangeRate)]. *)
Definition sendFor (deliveryValue : Z) (minRate : Rate) : Z :=
  Qceiling (inject_Z deliveryValue / rateQ minRate).

(** Modelled from the spec: the contract
    [Quote(sourceAsset, destinationAsset, target, probedRateLow,
    probedRateHigh, maxPacketAmount)] of section 4.1, which no source file
    implements; the packet ceiling is the smaller of the caller's and the
    destination's, and the failures are those the section lists. *)
Definition Quote (slippage : Rate) (sourceAsset destinationAsset : Asset)
    (target : Target) (probedRateLow probedRateHigh : Rate)
    (callerCeiling receiveCapacity : Z) : result QuoteError Quotation :=
  let maxPacket := Z.min callerCeiling receiveCapacity in
  if maxPacket <? 1 then Err PacketTooSmall
  else if rate_ltb probedRateHigh probedRateLow then Err InvalidRateBounds
  else if numerator probedRateLow <=? 0 then Err ZeroRate
  else
    let minRate := applySlippage slippage probedRateLow in
    let inSource v := {| value := v; assetCode := code sourceAsset;
                         assetScale := scale sourceAsset |} in
    let inDestination v := {| value := v; assetCode := code destinationAsset;
                              assetScale := scale destinationAsset |} in
    match type target with
    | FixedSend =>
        let received := receiveFor (amount target) minRate in
        if received =? 0 then Err AmountTooSmall
        else Ok {| quotedType := FixedSend;
                   quotedMaxPacketAmount := inSource maxPacket;
                   quotedMinExchangeRate := minRate;
                   sendAmount := inSource (amount target);
                   receiveAmount := inDestination received |}
    | FixedDelivery =>
        let sent := sendFor (amount target) minRate in
        if sent =? 0 then Err AmountTooSmall
        else Ok {| quotedType := FixedDelivery;
                   quotedMaxPacketAmount := inSource maxPacket;
                   quotedMinExchangeRate := minRate;
                   sendAmount := inSource sent;
                   receiveAmount := inDestination (amount target) |}
    end.

End QuoteEngine.

(* ===================================================================== *)
(** ** Payment lifecycle (section 4.2 of the design document) *)
(* ===================================================================== *)

Module Lifecycle.
Import DataModel.

(** Modelled from the spec: the six states of section 4.2. *)
Inductive PaymentState : Type :=
| Pending
| Quoted
| Sending
| Completed
| Failed
| Cancelled.

(** Modelled from the spec: the OutgoingPayment aggregate of section 3. *)
Record OutgoingPayment : Type := mkPayment {
  id : string;
  state : PaymentState;
  error : option string;
  stateAttempts : nat;
  description : option string;
  externalRef : option string;
  sourceAccountId : string;
  assetId : string;
  receivingPaymentPointer : string;
  receivingPayment : string;
  sendAmount : option Amount;
  receiveAmount : option Amount;
  quote : option QuoteRecord;
  createdAt : Z;
  updatedAt : Z
}.

(** Modelled from the spec: the events of the transition table. *)
Inductive Outcome : Type :=
| QuoteSucceeded (q : QuoteRecord)
| QuoteFailed (reason : string)
| BeginTransmission
| Delivered
| TransientFailure (reason : string)
| FatalFailure (reason : string)
| CancelRequested.

(** Modelled from the spec: the LifecycleError taxonomy of section 7. *)
Inductive LifecycleError : Type :=
| AlreadyTerminal
| TooLate
| Conflict.

(** Modelled from the spec: the terminal states. *)
Definition isTerminal (s : PaymentState) : bool :=
  match s with
  | Completed | Failed | Cancelled => true
  | _ => false
  end.

(** Modelled from the spec: a payment moved to [s] with attempt count [n],
    error [e] and quote [q]; every other field is kept. *)
Definition moved (p : OutgoingPayment) (s : PaymentState) (n : nat)
    (e : option string) (q : option QuoteRecord) : OutgoingPayment :=
  {| id := id p; state := s; error := e; stateAttempts := n;
     description := description p; externalRef := externalRef p;
     sourceAccountId := sourceAccountId p; assetId := assetId p;
     receivingPaymentPointer := receivingPaymentPointer p;
     receivingPayment := receivingPayment p;
     sendAmount := sendAmount p; receiveAmount := receiveAmount p;
     quote := q; createdAt := createdAt p; updatedAt := updatedAt p |}.

(** Modelled from the spec: one row of the transition table of section
    4.2 applied to a payment.  The answer is the payment afterwards and
    the error reported, if any; [None] where the table has no row for the
    event in that state. *)
Definition transition (maxAttempts : nat) (p : OutgoingPayment) (o : Outcome)
    : option (OutgoingPayment * option LifecycleError) :=
  match state p, o with
  | (Completed | Failed | Cancelled), _ => Some (p, Some AlreadyTerminal)
  | Pending, QuoteSucceeded q => Some (moved p Quoted 0 None (Some q), None)
  | Pending, QuoteFailed reason => Some (moved p Failed 0 (Some reason) (quote p), None)
  | Quoted, BeginTransmission => Some (moved p Sending 0 (error p) (quote p), None)
  | Sending, Delivered => Some (moved p Completed 0 None (quote p), None)
  | Sending, TransientFailure reason =>
      let n := S (stateAttempts p) in
      if (maxAttempts <=? n)%nat
      then Some (moved p Failed 0 (Some reason) (quote p), None)
      else Some (moved p Sending n (Some reason) (quote p), None)
  | Sending, FatalFailure reason => Some (moved p Failed 0 (Some reason) (quote p), None)
  | (Pending | Quoted), CancelRequested => Some (moved p Cancelled 0 None (quote p), None)
  | Sending, CancelRequested => Some (p, Some TooLate)
  | _, _ => None
  end.

(** Modelled from the spec: [advance(paymentId, outcome)], the only
    mutator of the payment store, for a single caller holding the lease. *)
Definition advance (maxAttempts : nat) (store : gmap string OutgoingPayment)
    (paymentId : string) (o : Outcome)
    : option (gmap string OutgoingPayment * option LifecycleError) :=
  match store !! paymentId with
  | None => None
  | Some p =>
      match transition maxAttempts p o with
      | None => None
      | Some (p', report) => Some (<[paymentId := p']> store, report)
      end
  end.

(** Modelled from the spec: [advance] applied to one payment for each
    outcome of a list in turn, with the reports collected. *)
Fixpoint advanceAll (maxAttempts : nat) (store : gmap string OutgoingPayment)
    (paymentId : string) (os : list Outcome)
    : option (gmap string OutgoingPayment * list (option LifecycleError)) :=
  match os with
  | [] => Some (store, [])
  | o :: rest =>
      match advance maxAttempts store paymentId o with
      | None => None
      | Some (store1, report) =>
          match advanceAll maxAttempts store1 paymentId rest with
          | None => None
          | Some (store2, reports) => Some (store2, report :: reports)
          end
      end
  end.

End Lifecycle.


(* ===================================================================== *)
(** ** Concrete inputs used to exercise the statements *)
(* ===================================================================== *)

Module Samples.

(** A store holding one account and one asset, as the earlier migrations
    and seeds would leave it. *)
Definition idOnly : Knex.Table :=
  Knex.buildTable [Knex.AddColumn (Knex.primary (Knex.notNullable (Knex.uuid "id")))].

Definition accountRow : gmap string Knex.SqlValue :=
  {[ "id" := Knex.VUuid "0f3b3a6e-8c1d-4a52-9d7e-2b6c5a4e1f00" ]}.

Definition assetRow : gmap string Knex.SqlValue :=
  {[ "id" := Knex.VUuid "7a1c9e52-3b44-4c0a-8f3d-5e6b7c8d9e10" ]}.

Definition seededDb : gmap string Knex.TableState :=
  <["accounts" := {| Knex.tdef := idOnly; Knex.trows := [accountRow] |}]>
    (<["assets" := {| Knex.tdef := idOnly; Knex.trows := [assetRow] |}]> ∅).

Definition usd : QuoteEngine.Asset := {| QuoteEngine.code := "USD"; QuoteEngine.scale := 2 |}.
Definition eur : QuoteEngine.Asset := {| QuoteEngine.code := "EUR"; QuoteEngine.scale := 2 |}.

(** A completed payment of 100.00 USD. *)
Definition settled : Lifecycle.OutgoingPayment :=
  {| Lifecycle.id := "p-1"; Lifecycle.state := Lifecycle.Completed;
     Lifecycle.error := None; Lifecycle.stateAttempts := 0;
     Lifecycle.description := None; Lifecycle.externalRef := None;
     Lifecycle.sourceAccountId := "acct"; Lifecycle.assetId := "usd";
     Lifecycle.receivingPaymentPointer := "$wallet.example/bob";
     Lifecycle.receivingPayment := "";
     Lifecycle.sendAmount := Some (DataModel.mkAmount 10000 "USD" 2);
     Lifecycle.receiveAmount := Some (DataModel.mkAmount 8910 "EUR" 2);
     Lifecycle.quote := None; Lifecycle.createdAt := 0; Lifecycle.updatedAt := 0 |}.

(** Stand-ins for the route's imports: eight-four-four-four-twelve
    hexadecimal groups pass as an identifier, a form is accepted when it
    names a status, and dates print as they are. *)
Definition isHexDigit (c : Ascii.ascii) : bool :=
  let n := Ascii.nat_of_ascii c in
  ((48 <=? n) && (n <=? 57) || (97 <=? n) && (n <=? 102) || (65 <=? n) && (n <=? 70))%nat.

Fixpoint hexGroups (groups : list nat) (s : string) : bool :=
  match groups with
  | [] => match s with EmptyString => true | _ => false end
  | O :: rest =>
      match rest, s with
      | [], EmptyString => true
      | _ :: _, String c s' => Ascii.eqb c (Ascii.ascii_of_nat 45) && hexGroups rest s'
      | _, _ => false
      end
  | S n :: rest =>
      match s with
      | String c s' => isHexDigit c && hexGroups (n :: rest) s'
      | EmptyString => false
      end
  end.

Definition sampleIsUuid (s : string) : bool := hexGroups [8; 4; 4; 4; 12]%nat s.

Definition sampleSchema (form : gmap string Route.FormDataEntryValue)
    : result string (gmap string Route.FormDataEntryValue) :=
  match form !! "status" with
  | Some (Route.EntryString _) => Ok form
  | _ => Err "status"
  end.

Definition sampleCollaborators : Route.Collaborators :=
  {| Route.Session := option string;
     Route.Redirect := string * Route.Message;
     Route.UpdateInput := gmap string Route.FormDataEntryValue;
     Route.ZodError := string;
     Route.isUuid := sampleIsUuid;
     Route.toLocaleString := fun v =>
       match v with Route.JStr s => s | _ => "Invalid Date" end;
     Route.updatePaymentPointerSchema := sampleSchema;
     Route.flattenFieldErrors := fun field => {[ field := ["Required"] ]} |}.

(** A backend whose state is the table of payment pointers; updates are
    accepted when the pointer named by the form exists. *)
Definition sampleBackend
    : @Route.Backend sampleCollaborators (gmap string (gmap string Route.Json)) :=
  fun X e w =>
    match e in @Route.Api _ T return T * gmap string (gmap string Route.Json) with
    | Route.getPaymentPointer id => (w !! id, w)
    | Route.updatePaymentPointer args =>
        match args !! "id" with
        | Some (Route.EntryString id) =>
            match w !! id with
            | Some pp =>
                (Some {| Route.success := true; Route.message := None |},
                 <[id := <["status" := Route.JStr "INACTIVE"]> pp]> w)
            | None =>
                (Some {| Route.success := false; Route.message := Some "unknown" |}, w)
            end
        | _ => (None, w)
        end
    | Route.getSession cookie => (cookie, w)
    | Route.setMessageAndRedirect session msg location => ((location, msg), w)
    end.

Definition pointerId : string := "3f2b8c1a-52d4-4e6f-9a7b-0c1d2e3f4a5b".

Definition pointer : gmap string Route.Json :=
  <["id" := Route.JStr pointerId]>
    (<["url" := Route.JStr "https://wallet.example/alice"]>
      (<["status" := Route.JStr "ACTIVE"]>
        (<["createdAt" := Route.JStr "2023-04-01T10:00:00Z"]> ∅))).

Definition pointers : gmap string (gmap string Route.Json) := {[ pointerId := pointer ]}.

(** Two submissions of the edit form. *)
Definition acceptedForm : Route.Request :=
  {| Route.headers := {[ "cookie" := "msg=1" ]};
     Route.formData := [ ("id", Route.EntryString pointerId);
                   ("publicName", Route.EntryString "Alice");
                   ("status", Route.EntryString "INACTIVE") ] |}.

Definition rejectedForm : Route.Request :=
  {| Route.headers := ∅;
     Route.formData := [ ("id", Route.EntryString pointerId) ] |}.

End Samples.


(* ===================================================================== *)
(** ** The store once the table exists *)
(* ===================================================================== *)

Module Store.
Import Knex Migration.

(** The rows a table holds; none when the table is missing. *)
Definition rowsOf (db : gmap string TableState) (name : string)
    : list (gmap string SqlValue) :=
  match db !! name with
  | Some ts => trows ts
  | None => []
  end.


(** The store carries the table as the migration defines it. *)
Definition migrated (db : gmap string TableState) : Prop :=
  exists rows, db !! "outgoingPayments" = Some {| tdef := outgoingPayments; trows := rows |}.




End Store.

Module StoreSamples.
Import Knex Migration.

(** The seeded store after [up]. *)
Definition migratedDb : gmap string TableState :=
  <["outgoingPayments" := {| tdef := outgoingPayments; trows := [] |}]> Samples.seededDb.

Definition firstPayment : gmap string SqlValue :=
  pendingRow "c0ffee00-0000-4000-8000-000000000001" "Pending"
             "0f3b3a6e-8c1d-4a52-9d7e-2b6c5a4e1f00"
             "7a1c9e52-3b44-4c0a-8f3d-5e6b7c8d9e10".

(** The store once [firstPayment] has been inserted at time 1635251145. *)
Definition afterFirst : gmap string TableState :=
  <["outgoingPayments" :=
      {| tdef := outgoingPayments;
         trows := [completeRow 1635251145 outgoingPayments firstPayment] |}]> migratedDb.


End StoreSamples.

(* ===================================================================== *)
(** ** The page of the payment-pointer detail route *)
(* ===================================================================== *)

Module Page.
Import Route.

#[local] Set Warnings "-register-all".

(** What the component imports and does not define: [capitalize] of
    [~/shared/utils], and the host's printing of a number. *)
Class Host : Type := {
  capitalize : Json -> Json;
  numberToString : Z -> string
}.

(** A React element as JSX builds it: a host tag or a component name,
    its props in source order, its children; literal text; or the value of
    an expression in braces. *)
Inductive Node : Type :=
| Element (tag : string) (props : list (string * Json)) (children : list Node)
| Text (s : string)
| Value (v : Json).

Inductive JsError : Type :=
| TypeError.

(** [v.k]: reading a property of [null] or [undefined] throws; a missing
    property reads as [undefined].  None of the names the page reads is a
    built-in property of a string, number, boolean or array. *)
Definition member (v : Json) (k : string) : result JsError Json :=
  match v with
  | JNull | JUndefined => Err TypeError
  | JObj o => Ok (getProp o k)
  | _ => Ok JUndefined
  end.

Definition nullish (v : Json) : bool :=
  match v with
  | JNull | JUndefined => true
  | _ => false
  end.

(** [v ?? d] *)
Definition orElse (v d : Json) : Json := if nullish v then d else v.

Definition strings (l : list string) : Json := JArr (map JStr l).

Definition andThen {A B : Type} (r : result JsError A) (k : A -> result JsError B)
    : result JsError B :=
  match r with
  | Ok a => k a
  | Err e => Err e
  end.

Notation "'let?' x ':=' r 'in' k" := (andThen r (fun x => k))
  (at level 10, x name, r at level 100, k at level 200, only parsing).

Section Component.
Context `{Host}.

(** The string a template literal makes of a value. *)
Fixpoint toStringJs (v : Json) : string :=
  match v with
  | JNull => "null"
  | JUndefined => "undefined"
  | JBool true => "true"
  | JBool false => "false"
  | JNum z => numberToString z
  | JStr s => s
  | JArr items =>
      String.concat ","
        (map (fun item => if nullish item then "" else toStringJs item) items)
  | JObj _ => "[object Object]"
  end.

(** [response?.errors.message] *)
Definition responseMessages (response : option ActionResponse) : Json :=
  match response with
  | Some r => strings (errorMessage (errors r))
  | None => JUndefined
  end.

(** [response?.errors.fieldErrors.<field>] *)
Definition responseFieldError (response : option ActionResponse) (field : string) : Json :=
  match response with
  | Some r =>
      match fieldErrors (errors r) !! field with
      | Some l => strings l
      | None => JUndefined
      end
  | None => JUndefined
  end.

(** The JSX the component returns, over the values its expressions read. *)
Definition markup (isSubmitting : bool) (response : option ActionResponse)
    (createdAt id url publicName status code scale withdrawalThreshold assetId : Json)
    : Node :=
  (Element "div" [("className", JStr "pt-4 flex flex-col space-y-4")]
    [ Element "div" [("className", JStr "flex flex-col rounded-md bg-offwhite px-6")]
        [ Element "PageHeader" [("className", JStr "!justify-end")]
            [ Element "Button"
                [ ("aria-label", JStr "go back to payment pointers page");
                  ("to", JStr "/payment-pointers") ]
                [ Text "Go to payment pointers page" ] ];
          Element "div"
            [("className",
              JStr "grid grid-cols-1 py-3 gap-6 md:grid-cols-3 border-b border-pearl")]
            [ Element "div" [("className", JStr "col-span-1 pt-3")]
                [ Element "h3" [("className", JStr "text-lg font-medium")]
                    [ Text "General Information" ];
                  Element "p" [("className", JStr "text-sm")]
                    [ Text "Created at "; Value createdAt ];
                  Element "ErrorPanel" [("errors", responseMessages response)] [] ];
              Element "div" [("className", JStr "md:col-span-2 bg-white rounded-md shadow-md")]
                [ Element "Form"
                    [ ("method", JStr "post"); ("replace", JBool true);
                      ("preventScrollReset", JBool true) ]
                    [ Element "fieldset" [("disabled", JBool isSubmitting)]
                        [ Element "div" [("className", JStr "w-full p-4 space-y-3")]
                            [ Element "Input"
                                [ ("type", JStr "hidden"); ("name", JStr "id");
                                  ("value", id) ] [];
                              Element "Input"
                                [ ("label", JStr "ID"); ("value", id);
                                  ("disabled", JBool true); ("readOnly", JBool true) ] [];
                              Element "Input"
                                [ ("label", JStr "URL"); ("value", url);
                                  ("disabled", JBool true); ("readOnly", JBool true) ] [];
                              Element "Input"
                                [ ("name", JStr "publicName");
                                  ("label", JStr "Public name");
                                  ("defaultValue", orElse publicName JUndefined);
                                  ("error", responseFieldError response "publicName") ] [];
                              Element "Dropdown"
                                [ ("options",
                                   JArr [ JObj {[ "label" := JStr "Active";
                                                  "value" := JStr "ACTIVE" ]};
                                          JObj {[ "label" := JStr "Inactive";
                                                  "value" := JStr "INACTIVE" ]} ]);
                                  ("name", JStr "status");
                                  ("placeholder", JStr "Select status...");
                                  ("defaultValue",
                                   JObj {[ "label" := capitalize status;
                                           "value" := status ]});
                                  ("error", responseFieldError response "status");
                                  ("label", JStr "Status");
                                  ("required", JBool true) ] [] ];
                          Element "div" [("className", JStr "flex justify-end p-4")]
                            [ Element "Button"
                                [ ("aria-label", JStr "save payment pointer information");
                                  ("type", JStr "submit") ]
                                [ Value (JStr (if isSubmitting then "Saving ..."
                                               else "Save")) ] ] ] ] ] ];
          Element "div"
            [("className",
              JStr "grid grid-cols-1 py-3 gap-6 md:grid-cols-3 border-b border-pearl")]
            [ Element "div" [("className", JStr "col-span-1 pt-3")]
                [ Element "h3" [("className", JStr "text-lg font-medium")]
                    [ Text "Asset Information" ] ];
              Element "div" [("className", JStr "md:col-span-2 bg-white rounded-md shadow-md")]
                [ Element "div"
                    [("className", JStr "w-full p-4 gap-4 grid grid-cols-1 lg:grid-cols-3")]
                    [ Element "div" []
                        [ Element "p" [("className", JStr "font-medium")] [ Text "Code" ];
                          Element "p" [("className", JStr "mt-1")] [ Value code ] ];
                      Element "div" []
                        [ Element "p" [("className", JStr "font-medium")] [ Text "Scale" ];
                          Element "p" [("className", JStr "mt-1")] [ Value scale ] ];
                      Element "div" []
                        [ Element "p" [("className", JStr "font-medium")]
                            [ Text "Withdrawal threshold" ];
                          Element "p" [("className", JStr "mt-1")]
                            [ Value (orElse withdrawalThreshold
                                       (JStr "No withdrawal threshhold")) ] ] ];
                  Element "div" [("className", JStr "flex justify-end p-4")]
                    [ Element "Button"
                        [ ("aria-label", JStr "go to asset page");
                          ("type", JStr "button");
                          ("to", JStr ("/assets/" +:+ toStringJs assetId)) ]
                        [ Text "View asset" ] ] ] ] ];
      Element "Outlet" [] [] ]).

(** The component, given what [useLoaderData] (the body of the loader's
    answer), [useActionData] (the body of the action's JSON answer, if
    any) and [useNavigation().state] return; the property reads are made
    in source order. *)
Definition ViewAssetPage (loaderData : Json) (response : option ActionResponse)
    (navigationState : string) : result JsError Node :=
  let? paymentPointer := member loaderData "paymentPointer" in
  let isSubmitting := bool_decide (navigationState = "submitting") in
  let? createdAt := member paymentPointer "createdAt" in
  let? id := member paymentPointer "id" in
  let? url := member paymentPointer "url" in
  let? publicName := member paymentPointer "publicName" in
  let? status := member paymentPointer "status" in
  let? asset := member paymentPointer "asset" in
  let? code := member asset "code" in
  let? scale := member asset "scale" in
  let? withdrawalThreshold := member asset "withdrawalThreshold" in
  let? assetId := member asset "id" in
  Ok (markup isSubmitting response createdAt id url publicName status
             code scale withdrawalThreshold assetId).

End Component.

(** *** Reading a tree *)

(** A node and everything below it, in document order. *)
Fixpoint subtrees (n : Node) : list Node :=
  match n with
  | Element _ _ children => n :: flat_map subtrees children
  | _ => [n]
  end.

Definition tagOf (n : Node) : option string :=
  match n with
  | Element tag _ _ => Some tag
  | _ => None
  end.

(** The value of a prop; of a prop given twice, the later one. *)
Definition prop (n : Node) (k : string) : option Json :=
  match n with
  | Element _ props _ => snd <$> find (fun p => bool_decide (fst p = k)) (rev props)
  | _ => None
  end.

Definition childrenOf (n : Node) : list Node :=
  match n with
  | Element _ _ children => children
  | _ => []
  end.

(** The elements of a tree with a given tag, in document order. *)
Definition tagged (tag : string) (n : Node) : list Node :=
  List.filter (fun m => bool_decide (tagOf m = Some tag)) (subtrees n).

(** The elements of a tree that carry a [name], with that name. *)
Definition named (n : Node) : list (string * Node) :=
  omap (fun m => match prop m "name" with
                 | Some (JStr k) => Some (k, m)
                 | _ => None
                 end) (subtrees n).

(** The first element named [k]. *)
Definition field (n : Node) (k : string) : option Node :=
  snd <$> find (fun p => bool_decide (fst p = k)) (named n).

(** The elements with [type='submit']. *)
Definition submitButtons (n : Node) : list Node :=
  List.filter (fun m => match prop m "type" with
                        | Some (JStr t) => bool_decide (t = "submit")
                        | _ => false
                        end) (subtrees n).

(** What the page shows of a submission's errors: the [errors] of each
    ErrorPanel, and the [error] of the publicName and status fields. *)
Definition shownErrors (n : Node) : list (option Json) * option Json * option Json :=
  (map (fun m => prop m "errors") (tagged "ErrorPanel" n),
   field n "publicName" ≫= (fun m => prop m "error"),
   field n "status" ≫= (fun m => prop m "error")).

(** What [v.k] reads when [v] is neither [null] nor [undefined]. *)
Definition read (v : Json) (k : string) : Json :=
  match v with
  | JObj o => getProp o k
  | _ => JUndefined
  end.

End Page.

Module PageSamples.
Import Route Page.

Definition upperFirst (s : string) : string :=
  match s with
  | EmptyString => EmptyString
  | String c rest =>
      let n := Ascii.nat_of_ascii c in
      String (if ((97 <=? n) && (n <=? 122))%nat
              then Ascii.ascii_of_nat (n - 32) else c) rest
  end.

(** Stand-ins for the page's imports. *)
Definition sampleHost : Host :=
  {| capitalize := fun v => match v with JStr s => JStr (upperFirst s) | _ => v end;
     numberToString := fun z => NilZero.string_of_int (Z.to_int z) |}.

(** A pointer as the API returns it, with its asset. *)
Definition pointerWithAsset : gmap string Json :=
  <["asset" := JObj (<["id" := JStr "usd-2"]>
                      (<["code" := JStr "USD"]> (<["scale" := JNum 2]> ∅)))]>
    Samples.pointer.

Definition backendWithAsset : gmap string (gmap string Json) :=
  {[ Samples.pointerId := pointerWithAsset ]}.

(** What the loader hands to the page for [pointerWithAsset]. *)
Definition loaderData : Json :=
  JObj {[ "paymentPointer" :=
            JObj (<["createdAt" := JStr "2023-04-01T10:00:00Z"]> pointerWithAsset) ]}.

(** The answer of the action to the form without a status. *)
Definition rejection : ActionResponse :=
  {| errors := {| fieldErrors := {[ "status" := ["Required"] ]}; errorMessage := [] |} |}.

End PageSamples.

(* ===================================================================== *)
(** ** Properties of the migration *)
(* ===================================================================== *)

Module MigrationFacts.
Import Knex Migration.

(** Settles [Forall P l] on an explicit list, one element at a time. *)
Ltac each_of tac :=
  repeat (apply Forall_cons; split; [tac|]); apply Forall_nil; exact I.

(** *** What a successful [up] leaves behind *)

Lemma up_inv (db db' : gmap string TableState) :
  exports_up db = Ok db' ->
  db !! "outgoingPayments" = None /\
  db' = <["outgoingPayments" := {| tdef := outgoingPayments; trows := [] |}]> db.
Proof.
  unfold exports_up, createTable.
  destruct (db !! "outgoingPayments") eqn:E; intros H; [discriminate|].
  injection H as <-. split; reflexivity.
Qed.

Lemma up_table (db db' : gmap string TableState) :
  exports_up db = Ok db' ->
  db' !! "outgoingPayments" = Some {| tdef := outgoingPayments; trows := [] |}.
Proof.
  intros H. destruct (up_inv _ _ H) as [_ ->]. apply lookup_insert_eq.
Qed.

Lemma up_fresh (db : gmap string TableState) :
  db !! "outgoingPayments" = None ->
  exports_up db = Ok (<["outgoingPayments" := {| tdef := outgoingPayments; trows := [] |}]> db).
Proof.
  intros H. unfold exports_up, createTable. rewrite H. reflexivity.
Qed.


Lemma up_empty :
  exports_up ∅ = Ok {[ "outgoingPayments" := {| tdef := outgoingPayments; trows := [] |} ]}.
Proof. apply up_fresh. reflexivity. Qed.

(** C1 (as amended): after a successful [up] the outgoingPayments table
    carries an index on [state] and a composite index on
    [(accountId, createdAt, id)], each over columns of the table. *)
Theorem up_creates_indexes (db db' : gmap string TableState)
    (Hup : exports_up db = Ok db') :
  exists ts, db' !! "outgoingPayments" = Some ts /\
    hasIndex (tdef ts) ["state"] = true /\
    hasIndex (tdef ts) ["accountId"; "createdAt"; "id"] = true /\
    Forall (fun cols => Forall (fun c => hasColumn (tdef ts) c = true) cols)
           (indexes (tdef ts)).
Proof.
  eexists. split; [apply (up_table _ _ Hup)|]. cbn [tdef].
  repeat split; try (vm_compute; reflexivity).
  repeat constructor.
Qed.

Lemma up_creates_indexes_witness :
  exists ts, ({[ "outgoingPayments" := {| tdef := outgoingPayments; trows := [] |} ]}
               : gmap string TableState) !! "outgoingPayments" = Some ts /\
    hasIndex (tdef ts) ["state"] = true /\
    hasIndex (tdef ts) ["accountId"; "createdAt"; "id"] = true /\
    Forall (fun cols => Forall (fun c => hasColumn (tdef ts) c = true) cols)
           (indexes (tdef ts)).
Proof. exact (up_creates_indexes ∅ _ up_empty). Defined.

(** C1 (as stated) fails: the table [up] creates on an empty store has no
    index over [(sourceAccountId, createdAt, id)], and no column of that
    name. *)
Lemma no_sourceAccountId_index :
  ~ (forall db db' : gmap string TableState, exports_up db = Ok db' ->
       exists ts, db' !! "outgoingPayments" = Some ts /\
         hasIndex (tdef ts) ["state"] = true /\
         hasIndex (tdef ts) ["sourceAccountId"; "createdAt"; "id"] = true).
Proof.
  intros H. destruct (H ∅ _ up_empty) as (ts & Hts & _ & Hidx).
  rewrite lookup_singleton_eq in Hts. injection Hts as <-.
  vm_compute in Hidx. discriminate.
Qed.

(** C2: after a successful [up], each persisted exchange rate (minimum,
    low estimate, high estimate) is a pair of bigInteger columns,
    numerator and denominator; every column that mentions an exchange rate
    is such an integer column; and no column of the table is of a
    floating-point kind. *)
Theorem rates_are_integer_pairs (db db' : gmap string TableState)
    (Hup : exports_up db = Ok db') :
  exists ts, db' !! "outgoingPayments" = Some ts /\
    Forall (fun r =>
              columnHasType (tdef ts) (r +:+ "Numerator") TBigInteger = true /\
              columnHasType (tdef ts) (r +:+ "Denominator") TBigInteger = true)
           persistedRates /\
    Forall (fun c => mentions "ExchangeRate" (colName c) = true ->
                     is_integer (colType c) = true /\
                     exists r, r ∈ persistedRates /\
                       (colName c = r +:+ "Numerator" \/ colName c = r +:+ "Denominator"))
           (columns (tdef ts)) /\
    Forall (fun c => is_floating (colType c) = false) (columns (tdef ts)).
Proof.
  eexists. split; [apply (up_table _ _ Hup)|]. cbn [tdef].
  split; [|split].
  - repeat constructor.
  - vm_compute columns. unfold persistedRates.
    each_of ltac:(
      cbn [colName colType]; intros Hm;
      first [ discriminate Hm
            | split; [reflexivity|];
              first [ exists "quoteMinExchangeRate"; split; [set_solver|]; auto; fail
                    | exists "quoteLowExchangeRateEstimate"; split; [set_solver|]; auto; fail
                    | exists "quoteHighExchangeRateEstimate"; split; [set_solver|]; auto ] ]).
  - vm_compute columns. repeat constructor.
Qed.

Lemma rates_are_integer_pairs_witness :
  exists ts, ({[ "outgoingPayments" := {| tdef := outgoingPayments; trows := [] |} ]}
               : gmap string TableState) !! "outgoingPayments" = Some ts /\
    Forall (fun r =>
              columnHasType (tdef ts) (r +:+ "Numerator") TBigInteger = true /\
              columnHasType (tdef ts) (r +:+ "Denominator") TBigInteger = true)
           persistedRates /\
    Forall (fun c => mentions "ExchangeRate" (colName c) = true ->
                     is_integer (colType c) = true /\
                     exists r, r ∈ persistedRates /\
                       (colName c = r +:+ "Numerator" \/ colName c = r +:+ "Denominator"))
           (columns (tdef ts)) /\
    Forall (fun c => is_floating (colType c) = false) (columns (tdef ts)).
Proof. exact (rates_are_integer_pairs ∅ _ up_empty). Defined.

(** C3 (as amended): after a successful [up], the receive amount is
    persisted whole (a bigInteger value, a string asset code and an integer
    asset scale), the send amount is persisted as a bigInteger value only
    (no other column belongs to it), and the asset of the send amount is
    referenced through the required [assetId] column, a foreign key to
    [assets.id]. *)
Theorem amounts_as_persisted (db db' : gmap string TableState)
    (Hup : exports_up db = Ok db') :
  exists ts, db' !! "outgoingPayments" = Some ts /\
    columnHasType (tdef ts) "receiveAmountValue" TBigInteger = true /\
    columnHasType (tdef ts) "receiveAmountAssetCode" TString = true /\
    columnHasType (tdef ts) "receiveAmountAssetScale" TInteger = true /\
    columnHasType (tdef ts) "sendAmountValue" TBigInteger = true /\
    Forall (fun c => String.prefix "sendAmount" c = true -> c = "sendAmountValue")
           (columnNames (tdef ts)) /\
    isRequiredColumn (tdef ts) "assetId" = true /\
    {| fkColumn := "assetId"; fkInTable := "assets"; fkReferences := "id" |}
      ∈ foreignKeys (tdef ts).
Proof.
  eexists. split; [apply (up_table _ _ Hup)|]. cbn [tdef].
  repeat split; try (vm_compute; reflexivity).
  - vm_compute columnNames.
    each_of ltac:(intros Hp; first [ discriminate Hp | reflexivity ]).
  - vm_compute foreignKeys. set_solver.
Qed.

Lemma amounts_as_persisted_witness :
  exists ts, ({[ "outgoingPayments" := {| tdef := outgoingPayments; trows := [] |} ]}
               : gmap string TableState) !! "outgoingPayments" = Some ts /\
    columnHasType (tdef ts) "receiveAmountValue" TBigInteger = true /\
    columnHasType (tdef ts) "receiveAmountAssetCode" TString = true /\
    columnHasType (tdef ts) "receiveAmountAssetScale" TInteger = true /\
    columnHasType (tdef ts) "sendAmountValue" TBigInteger = true /\
    Forall (fun c => String.prefix "sendAmount" c = true -> c = "sendAmountValue")
           (columnNames (tdef ts)) /\
    isRequiredColumn (tdef ts) "assetId" = true /\
    {| fkColumn := "assetId"; fkInTable := "assets"; fkReferences := "id" |}
      ∈ foreignKeys (tdef ts).
Proof. exact (amounts_as_persisted ∅ _ up_empty). Defined.

(** C3 (as stated) fails: the table [up] creates on an empty store does
    not carry value, asset code and asset scale for both amounts; the send
    amount has neither an asset code nor an asset scale column. *)
Lemma sendAmount_is_not_whole :
  ~ (forall db db' : gmap string TableState, exports_up db = Ok db' ->
       exists ts, db' !! "outgoingPayments" = Some ts /\
         Forall (fun a => Forall (fun c => hasColumn (tdef ts) c = true) (amountColumns a))
                ["sendAmount"; "receiveAmount"]).
Proof.
  intros H. destruct (H ∅ _ up_empty) as (ts & Hts & Hall).
  rewrite lookup_singleton_eq in Hts. injection Hts as <-.
  apply Forall_cons in Hall as [Hsend _].
  apply Forall_cons in Hsend as [_ Hsend].
  apply Forall_cons in Hsend as [Hcode _].
  vm_compute in Hcode. discriminate.
Qed.

(** C4 (as amended): after a successful [up], the destination is
    persisted in two nullable string columns named [receivingAccount] and
    [receivingPayment], and these are the only columns whose name starts
    with [receiving]. *)
Theorem destination_columns (db db' : gmap string TableState)
    (Hup : exports_up db = Ok db') :
  exists ts, db' !! "outgoingPayments" = Some ts /\
    columnHasType (tdef ts) "receivingAccount" TString = true /\
    columnHasType (tdef ts) "receivingPayment" TString = true /\
    isNullableColumn (tdef ts) "receivingAccount" = true /\
    isNullableColumn (tdef ts) "receivingPayment" = true /\
    Forall (fun c => String.prefix "receiving" c = true ->
                     c = "receivingAccount" \/ c = "receivingPayment")
           (columnNames (tdef ts)).
Proof.
  eexists. split; [apply (up_table _ _ Hup)|]. cbn [tdef].
  repeat split; try (vm_compute; reflexivity).
  vm_compute columnNames.
  each_of ltac:(intros Hp;
                first [ discriminate Hp | left; reflexivity | right; reflexivity ]).
Qed.

Lemma destination_columns_witness :
  exists ts, ({[ "outgoingPayments" := {| tdef := outgoingPayments; trows := [] |} ]}
               : gmap string TableState) !! "outgoingPayments" = Some ts /\
    columnHasType (tdef ts) "receivingAccount" TString = true /\
    columnHasType (tdef ts) "receivingPayment" TString = true /\
    isNullableColumn (tdef ts) "receivingAccount" = true /\
    isNullableColumn (tdef ts) "receivingPayment" = true /\
    Forall (fun c => String.prefix "receiving" c = true ->
                     c = "receivingAccount" \/ c = "receivingPayment")
           (columnNames (tdef ts)).
Proof. exact (destination_columns ∅ _ up_empty). Defined.

(** C4 (as stated) fails: the table [up] creates on an empty store has no
    column named [receivingPaymentPointer]. *)
Lemma no_receivingPaymentPointer_column :
  ~ (forall db db' : gmap string TableState, exports_up db = Ok db' ->
       exists ts, db' !! "outgoingPayments" = Some ts /\
         columnHasType (tdef ts) "receivingPaymentPointer" TString = true /\
         columnHasType (tdef ts) "receivingPayment" TString = true).
Proof.
  intros H. destruct (H ∅ _ up_empty) as (ts & Hts & Hptr & _).
  rewrite lookup_singleton_eq in Hts. injection Hts as <-.
  vm_compute in Hptr. discriminate.
Qed.

(** *** Storing a row *)








(** The constraints bite: a row without a state, or for an account the
    store does not know, is refused. *)
Example row_without_state_refused :
  insert 0 "outgoingPayments"
    (delete "state" (pendingRow "c0ffee00-0000-4000-8000-000000000001" "Pending"
                       "0f3b3a6e-8c1d-4a52-9d7e-2b6c5a4e1f00"
                       "7a1c9e52-3b44-4c0a-8f3d-5e6b7c8d9e10"))
    (<["outgoingPayments" := {| tdef := outgoingPayments; trows := [] |}]> Samples.seededDb)
  = Err (NotNullViolation "state").
Proof. vm_compute. reflexivity. Qed.

Example row_for_unknown_account_refused :
  insert 0 "outgoingPayments"
    (pendingRow "c0ffee00-0000-4000-8000-000000000001" "Pending"
                "ffffffff-ffff-4fff-8fff-ffffffffffff"
                "7a1c9e52-3b44-4c0a-8f3d-5e6b7c8d9e10")
    (<["outgoingPayments" := {| tdef := outgoingPayments; trows := [] |}]> Samples.seededDb)
  = Err (ForeignKeyViolation "accountId").
Proof. vm_compute. reflexivity. Qed.



End MigrationFacts.


(* ===================================================================== *)
(** ** Properties of the route handlers *)
(* ===================================================================== *)

Module RouteFacts.
Import Route.

Section WithBackend.
Context `{Collaborators}.
Context {W : Type} (h : Backend W).

(** One awaited call, then the rest. *)
Lemma run_await {A X : Type} (e : Api X) (k : X -> Prog A) (w : W) :
  run h (Await e k) w =
  (fst (fst (run h (k (fst (h _ e w))) (snd (h _ e w)))),
   snd (fst (run h (k (fst (h _ e w))) (snd (h _ e w)))),
   CallOf e :: snd (run h (k (fst (h _ e w))) (snd (h _ e w)))).
Proof.
  cbn [run]. destruct (h X e w) as [x w1]. cbn [fst snd].
  destruct (run h (k x) w1) as [[o w2] calls]. reflexivity.
Qed.

Lemma safeParseUuid_Some (v : option string) (data : string) :
  safeParseUuid v = Some data <-> v = Some data /\ isUuid data = true.
Proof.
  unfold safeParseUuid. destruct v as [s|]; [|split; [discriminate|intros [? _]; discriminate]].
  destruct (isUuid s) eqn:E; split.
  - intros [= <-]. auto.
  - intros [[= <-] _]. reflexivity.
  - discriminate.
  - intros [[= <-] Hu]. congruence.
Qed.

Lemma safeParseUuid_None (v : option string) :
  safeParseUuid v = None <-> (forall s, v = Some s -> isUuid s = false).
Proof.
  unfold safeParseUuid. destruct v as [s|].
  - destruct (isUuid s) eqn:E; split; try discriminate; try reflexivity.
    + intros Hall. specialize (Hall s eq_refl). congruence.
    + intros _ s' [= <-]. exact E.
  - split; [intros _ s; discriminate | reflexivity].
Qed.

(** C9: for every request and every backend, (1) when the
    paymentPointerId parameter is missing or not a UUID, the loader throws
    400 'Invalid payment pointer ID.' and makes no call at all, so
    getPaymentPointer is not called; (2) it throws 404 'Payment pointer not
    found.' exactly when the identifier is valid and the lookup answers
    with no pointer; (3) when the lookup answers with a pointer, the loader
    returns it under [paymentPointer] with [createdAt] replaced by its
    locale string and every other property as it was. *)
Theorem loader_contract (w : W) (params : gmap string string) :
  ((forall s, params !! "paymentPointerId" = Some s -> isUuid s = false) ->
     loader params = Throw (json JNull 400 "Invalid payment pointer ID.") /\
     run h (loader params) w =
       (Thrown (json JNull 400 "Invalid payment pointer ID."), w, [])) /\
  (outcomeOf h (loader params) w = Thrown (json JNull 404 "Payment pointer not found.") <->
     exists data, params !! "paymentPointerId" = Some data /\ isUuid data = true /\
                  fst (h _ (getPaymentPointer data) w) = None) /\
  (forall data pp,
     params !! "paymentPointerId" = Some data -> isUuid data = true ->
     fst (h _ (getPaymentPointer data) w) = Some pp ->
     callsOf h (loader params) w = [CallOf (getPaymentPointer data)] /\
     exists shown,
       outcomeOf h (loader params) w =
         Returned (json (JObj {[ "paymentPointer" := JObj shown ]}) 200 "") /\
       shown !! "createdAt" = Some (JStr (toLocaleString (getProp pp "createdAt"))) /\
       forall k, k <> "createdAt" -> shown !! k = pp !! k).
Proof.
  split; [|split].
  - intros Hbad. apply safeParseUuid_None in Hbad.
    unfold loader. rewrite Hbad. split; reflexivity.
  - unfold outcomeOf, loader.
    destruct (safeParseUuid (params !! "paymentPointerId")) as [data|] eqn:Hparse.
    + apply safeParseUuid_Some in Hparse as [Hget Huuid].
      rewrite run_await. cbn [fst snd].
      destruct (fst (h _ (getPaymentPointer data) w)) as [pp|] eqn:Hlookup; cbn [run fst].
      * split; [discriminate|].
        intros (data' & Hget' & _ & Hnone).
        rewrite Hget in Hget'. injection Hget' as <-. congruence.
      * split; [|reflexivity]. intros _. exists data. auto.
    + cbn [run fst]. split; [discriminate|].
      intros (data & Hget & Huuid & _).
      assert (safeParseUuid (params !! "paymentPointerId") = Some data) as Hs
        by (apply safeParseUuid_Some; auto).
      congruence.
  - intros data pp Hget Huuid Hlookup.
    assert (safeParseUuid (params !! "paymentPointerId") = Some data) as Hs
      by (apply safeParseUuid_Some; auto).
    unfold callsOf, outcomeOf, loader. rewrite Hs, run_await. cbn [fst snd].
    rewrite Hlookup. cbn [run fst snd]. split; [reflexivity|].
    eexists. split; [reflexivity|]. split.
    + apply lookup_insert_eq.
    + intros k Hk. apply lookup_insert_ne. congruence.
Qed.

Lemma notSuccess_false (response : option MutationResponse) :
  notSuccess response = false <-> exists r, response = Some r /\ success r = true.
Proof.
  unfold notSuccess. destruct response as [r|].
  - destruct (success r) eqn:E; cbn [negb]; split.
    + intros _. exists r. auto.
    + reflexivity.
    + discriminate.
    + intros (r' & [= <-] & Hs). congruence.
  - split; [discriminate | intros (r & Hr & _); discriminate].
Qed.

(** C10: for every request and every backend, (1) when
    [updatePaymentPointerSchema] rejects the form data, the action returns
    a 400 response carrying the flattened field errors and makes no call at
    all, so the backend is left as it was; (2) every call to
    updatePaymentPointer in a run is made with the data the schema
    accepted; (3) the action returns the redirect exactly when the schema
    accepted the form and the update answered with success, and that
    redirect is the one made with the message 'Payment pointer was updated'
    of type success. *)
Theorem action_contract (w : W) (request : Request) :
  (forall error,
     updatePaymentPointerSchema (fromEntries (formData request)) = Err error ->
     run h (action request) w =
       (Returned (JsonResponse (json
          {| errors := {| fieldErrors := flattenFieldErrors error;
                          errorMessage := [] |} |} 400 "")), w, [])) /\
  (forall c, c ∈ callsOf h (action request) w -> isUpdatePaymentPointer c = true ->
     exists data,
       updatePaymentPointerSchema (fromEntries (formData request)) = Ok data /\
       c = CallOf (updatePaymentPointer data)) /\
  (forall r, outcomeOf h (action request) w = Returned (Redirected r) ->
     exists data response session w1 w2,
       updatePaymentPointerSchema (fromEntries (formData request)) = Ok data /\
       h _ (updatePaymentPointer data) w = (Some response, w1) /\
       success response = true /\
       h _ (getSession (headers request !! "cookie")) w1 = (session, w2) /\
       r = fst (h _ (setMessageAndRedirect session
                       {| content := "Payment pointer was updated"; type := "success" |}
                       ".") w2)) /\
  (forall data response,
     updatePaymentPointerSchema (fromEntries (formData request)) = Ok data ->
     fst (h _ (updatePaymentPointer data) w) = Some response ->
     success response = true ->
     exists r, outcomeOf h (action request) w = Returned (Redirected r)).
Proof.
  split; [|split; [|split]].
  - intros error Hparse. unfold action. rewrite Hparse. reflexivity.
  - intros c. unfold callsOf, action.
    destruct (updatePaymentPointerSchema (fromEntries (formData request)))
      as [data|error] eqn:Hparse.
    + rewrite run_await. cbn [fst snd].
      destruct (notSuccess (fst (h _ (updatePaymentPointer data) w))).
      * cbn [run snd]. intros Hin Hupd.
        apply list_elem_of_singleton in Hin. subst c. eauto.
      * rewrite !run_await. cbn [run fst snd]. intros Hin Hupd.
        apply elem_of_cons in Hin as [->|Hin]; [eauto|].
        apply elem_of_cons in Hin as [->|Hin]; [discriminate Hupd|].
        apply list_elem_of_singleton in Hin. subst c. discriminate Hupd.
    + cbn [run snd]. intros Hin. apply elem_of_nil in Hin. contradiction.
  - intros r. unfold outcomeOf, action.
    destruct (updatePaymentPointerSchema (fromEntries (formData request)))
      as [data|error] eqn:Hparse; [|discriminate].
    rewrite run_await. cbn [fst snd].
    destruct (h _ (updatePaymentPointer data) w) as [response w1] eqn:Hupd. cbn [fst snd].
    destruct (notSuccess response) eqn:Hns; [discriminate|].
    apply notSuccess_false in Hns as (resp & -> & Hsuccess).
    rewrite !run_await. cbn [run fst snd].
    destruct (h _ (getSession (headers request !! "cookie")) w1) as [session w2] eqn:Hsess.
    cbn [fst snd]. intros [= <-].
    exists data, resp, session, w1, w2. auto.
  - intros data response Hparse Hupd Hsuccess. unfold outcomeOf, action.
    rewrite Hparse, run_await. cbn [fst snd]. rewrite Hupd.
    cbn [notSuccess]. rewrite Hsuccess. cbn [negb].
    rewrite !run_await. cbn [run fst snd]. eauto.
Qed.

End WithBackend.

(** The loader on the sample backend: a malformed identifier is refused
    without a call, a known pointer is returned with its date rewritten. *)
Lemma loader_contract_witness :
  ((forall s, ({[ "paymentPointerId" := "42" ]} : gmap string string)
                !! "paymentPointerId" = Some s ->
              @isUuid Samples.sampleCollaborators s = false) /\
   run Samples.sampleBackend
       (@loader Samples.sampleCollaborators {[ "paymentPointerId" := "42" ]})
       Samples.pointers =
     (Thrown (json JNull 400 "Invalid payment pointer ID."), Samples.pointers, [])) /\
  (({[ "paymentPointerId" := Samples.pointerId ]} : gmap string string)
     !! "paymentPointerId" = Some Samples.pointerId /\
   @isUuid Samples.sampleCollaborators Samples.pointerId = true /\
   fst (Samples.sampleBackend _ (getPaymentPointer Samples.pointerId) Samples.pointers)
     = Some Samples.pointer /\
   exists shown,
     outcomeOf Samples.sampleBackend
       (@loader Samples.sampleCollaborators {[ "paymentPointerId" := Samples.pointerId ]})
       Samples.pointers =
       Returned (json (JObj {[ "paymentPointer" := JObj shown ]}) 200 "") /\
     shown !! "createdAt" = Some (JStr "2023-04-01T10:00:00Z") /\
     shown !! "url" = Samples.pointer !! "url").
Proof.
  assert (forall s, ({[ "paymentPointerId" := "42" ]} : gmap string string)
                      !! "paymentPointerId" = Some s ->
                    @isUuid Samples.sampleCollaborators s = false) as Hbad.
  { intros s Hs. rewrite lookup_singleton_eq in Hs. injection Hs as <-. reflexivity. }
  split.
  - split; [exact Hbad|].
    exact (proj2 (proj1 (@loader_contract Samples.sampleCollaborators _
                           Samples.sampleBackend Samples.pointers
                           {[ "paymentPointerId" := "42" ]}) Hbad)).
  - assert (({[ "paymentPointerId" := Samples.pointerId ]} : gmap string string)
              !! "paymentPointerId" = Some Samples.pointerId) as Hget by reflexivity.
    assert (@isUuid Samples.sampleCollaborators Samples.pointerId = true) as Huuid
      by reflexivity.
    assert (fst (Samples.sampleBackend _ (getPaymentPointer Samples.pointerId)
                   Samples.pointers) = Some Samples.pointer) as Hlookup by reflexivity.
    split; [exact Hget|]. split; [exact Huuid|]. split; [exact Hlookup|].
    destruct (proj2 (proj2 (@loader_contract Samples.sampleCollaborators _
                              Samples.sampleBackend Samples.pointers
                              {[ "paymentPointerId" := Samples.pointerId ]}))
                Samples.pointerId Samples.pointer Hget Huuid Hlookup)
      as (_ & shown & Hout & Hdate & Hrest).
    exists shown. split; [exact Hout|]. split; [exact Hdate|].
    apply Hrest. discriminate.
Defined.

(** The action on the sample backend: a form without a status is answered
    with 400 and no call, a valid form for a known pointer is redirected. *)
Lemma action_contract_witness :
  (@updatePaymentPointerSchema Samples.sampleCollaborators
     (fromEntries (formData Samples.rejectedForm)) = Err "status" /\
   run Samples.sampleBackend (@action Samples.sampleCollaborators Samples.rejectedForm)
       Samples.pointers =
     (Returned (JsonResponse (json
        {| errors := {| fieldErrors := {[ "status" := ["Required"] ]};
                        errorMessage := [] |} |} 400 "")),
      Samples.pointers, [])) /\
  (@updatePaymentPointerSchema Samples.sampleCollaborators
     (fromEntries (formData Samples.acceptedForm)) = Ok (fromEntries (formData Samples.acceptedForm)) /\
   exists r,
     outcomeOf Samples.sampleBackend (@action Samples.sampleCollaborators Samples.acceptedForm)
       Samples.pointers = Returned (Redirected r)).
Proof.
  split.
  - assert (@updatePaymentPointerSchema Samples.sampleCollaborators
              (fromEntries (formData Samples.rejectedForm)) = Err "status") as Hrej
      by reflexivity.
    split; [exact Hrej|].
    exact (proj1 (@action_contract Samples.sampleCollaborators _
                    Samples.sampleBackend Samples.pointers Samples.rejectedForm)
             "status" Hrej).
  - assert (@updatePaymentPointerSchema Samples.sampleCollaborators
              (fromEntries (formData Samples.acceptedForm))
            = Ok (fromEntries (formData Samples.acceptedForm))) as Hacc by reflexivity.
    assert (fst (Samples.sampleBackend _
                   (@updatePaymentPointer Samples.sampleCollaborators
                      (fromEntries (formData Samples.acceptedForm)))
                   Samples.pointers)
            = Some {| success := true; message := None |}) as Hupd by reflexivity.
    split; [exact Hacc|].
    exact (proj2 (proj2 (proj2 (@action_contract Samples.sampleCollaborators _
                                  Samples.sampleBackend Samples.pointers
                                  Samples.acceptedForm)))
             (fromEntries (formData Samples.acceptedForm))
             {| success := true; message := None |} Hacc Hupd eq_refl).
Defined.

End RouteFacts.


(* ===================================================================== *)
(** ** Properties of the quote arithmetic *)
(* ===================================================================== *)

Module QuoteFacts.
Import DataModel QuoteEngine.

(** What an accepted quote is made of. *)
Lemma Quote_inv (slippage : Rate) (src dst : Asset) (target : Target)
    (low high : Rate) (c1 c2 : Z) (q : Quotation) :
  Quote slippage src dst target low high c1 c2 = Ok q ->
  quotedType q = type target /\
  quotedMinExchangeRate q = applySlippage slippage low /\
  match type target with
  | FixedSend =>
      value (sendAmount q) = amount target /\
      value (receiveAmount q) = receiveFor (amount target) (applySlippage slippage low)
  | FixedDelivery =>
      value (receiveAmount q) = amount target /\
      value (sendAmount q) = sendFor (amount target) (applySlippage slippage low)
  end.
Proof.
  unfold Quote.
  destruct (Z.min c1 c2 <? 1); [discriminate|].
  destruct (rate_ltb high low); [discriminate|].
  destruct (numerator low <=? 0); [discriminate|].
  destruct (type target).
  - destruct (receiveFor (amount target) (applySlippage slippage low) =? 0);
      [discriminate|].
    intros [= <-]. cbn. auto.
  - destruct (sendFor (amount target) (applySlippage slippage low) =? 0);
      [discriminate|].
    intros [= <-]. cbn. auto.
Qed.

(** The guaranteed rate is the probed low rate less the slippage share. *)
Lemma applySlippage_value (slippage low : Rate) :
  (rateQ (applySlippage slippage low) == rateQ low * (1 - rateQ slippage))%Q.
Proof.
  unfold rateQ, applySlippage, Qeq, Qminus, Qplus, Qopp, Qmult. cbn.
  rewrite !Pos2Z.inj_mul. ring.
Qed.

(** C6: for every quote the engine produces, the guaranteed rate is the
    probed low rate reduced by the slippage share; for a FixedSend target
    the receive amount is the floor of send amount times that rate, so
    never above the exact product; for a FixedDelivery target the send
    amount is the ceiling of delivery amount over that rate, so never below
    the exact quotient.  On the document's example (send 10000, probed low
    0.90, high 0.92, slippage 1%, any packet ceiling of at least one unit)
    the engine quotes the rate 0.891 and the receive amount 8910. *)
Theorem quote_rounding (slippage : Rate) (src dst : Asset) (target : Target)
    (low high : Rate) (c1 c2 : Z) (q : Quotation)
    (Hquote : Quote slippage src dst target low high c1 c2 = Ok q) :
  (rateQ (quotedMinExchangeRate q) == rateQ low * (1 - rateQ slippage))%Q /\
  match type target with
  | FixedSend =>
      value (sendAmount q) = amount target /\
      value (receiveAmount q) =
        Qfloor (inject_Z (value (sendAmount q)) * rateQ (quotedMinExchangeRate q)) /\
      (inject_Z (value (receiveAmount q)) <=
         inject_Z (value (sendAmount q)) * rateQ (quotedMinExchangeRate q))%Q /\
      (inject_Z (value (sendAmount q)) * rateQ (quotedMinExchangeRate q) <
         inject_Z (value (receiveAmount q) + 1))%Q
  | FixedDelivery =>
      value (receiveAmount q) = amount target /\
      value (sendAmount q) =
        Qceiling (inject_Z (value (receiveAmount q)) / rateQ (quotedMinExchangeRate q)) /\
      (inject_Z (value (receiveAmount q)) / rateQ (quotedMinExchangeRate q) <=
         inject_Z (value (sendAmount q)))%Q /\
      (inject_Z (value (sendAmount q) - 1) <
         inject_Z (value (receiveAmount q)) / rateQ (quotedMinExchangeRate q))%Q
  end /\
  (forall k1 k2 : Z, 1 <= k1 -> 1 <= k2 ->
     exists q0,
       Quote (mkRate 1 100) Samples.usd Samples.eur (mkTarget FixedSend 10000)
             (mkRate 90 100) (mkRate 92 100) k1 k2 = Ok q0 /\
       (rateQ (quotedMinExchangeRate q0) == 891 # 1000)%Q /\
       receiveAmount q0 = {| value := 8910; assetCode := "EUR"; assetScale := 2 |}).
Proof.
  destruct (Quote_inv _ _ _ _ _ _ _ _ _ Hquote) as (_ & Hrate & Hamounts).
  split; [rewrite Hrate; apply applySlippage_value|].
  split.
  - rewrite Hrate. destruct (type target); destruct Hamounts as [Hgiven Hcomputed];
      rewrite Hgiven, Hcomputed.
    + unfold receiveFor. repeat split.
      * apply Qfloor_le.
      * apply Qlt_floor.
    + unfold sendFor. repeat split.
      * apply Qle_ceiling.
      * apply Qceiling_lt.
  - intros k1 k2 H1 H2. unfold Quote.
    destruct (Z.min k1 k2 <? 1) eqn:Hmin; [apply Z.ltb_lt in Hmin; lia|].
    eexists. split; [reflexivity|]. split; reflexivity.
Qed.

Lemma quote_rounding_witness :
  Quote (mkRate 1 100) Samples.usd Samples.eur (mkTarget FixedDelivery 5000)
        (mkRate 90 100) (mkRate 92 100) 1000 2500 =
    Ok {| quotedType := FixedDelivery;
          quotedMaxPacketAmount := {| value := 1000; assetCode := "USD"; assetScale := 2 |};
          quotedMinExchangeRate := mkRate 8910 10000;
          sendAmount := {| value := 5612; assetCode := "USD"; assetScale := 2 |};
          receiveAmount := {| value := 5000; assetCode := "EUR"; assetScale := 2 |} |} /\
  (5612 = Qceiling (inject_Z 5000 / rateQ (mkRate 8910 10000))) /\
  (inject_Z 5000 / rateQ (mkRate 8910 10000) <= inject_Z 5612)%Q /\
  (exists q0,
     Quote (mkRate 1 100) Samples.usd Samples.eur (mkTarget FixedSend 10000)
           (mkRate 90 100) (mkRate 92 100) 1000 2500 = Ok q0 /\
     receiveAmount q0 = {| value := 8910; assetCode := "EUR"; assetScale := 2 |}).
Proof.
  split; [reflexivity|].
  destruct (quote_rounding (mkRate 1 100) Samples.usd Samples.eur
              (mkTarget FixedDelivery 5000) (mkRate 90 100) (mkRate 92 100) 1000 2500
              _ eq_refl) as (_ & (_ & Hceil & Hle & _) & Hexample).
  split; [exact Hceil|]. split; [exact Hle|].
  destruct (Hexample 1000 2500 ltac:(lia) ltac:(lia)) as (q0 & Hq0 & _ & Hreceive).
  exists q0. split; [exact Hq0 | exact Hreceive].
Defined.

(** The engine refuses what section 4.1 tells it to refuse. *)
Example inverted_bounds_refused :
  Quote (mkRate 1 100) Samples.usd Samples.eur (mkTarget FixedSend 10000)
        (mkRate 92 100) (mkRate 90 100) 1000 2500 = Err InvalidRateBounds.
Proof. reflexivity. Qed.

Example dust_refused :
  Quote (mkRate 1 100) Samples.usd Samples.eur (mkTarget FixedSend 1)
        (mkRate 90 100) (mkRate 92 100) 1000 2500 = Err AmountTooSmall.
Proof. reflexivity. Qed.

End QuoteFacts.

(* ===================================================================== *)
(** ** Properties of the lifecycle *)
(* ===================================================================== *)

Module LifecycleFacts.
Import Lifecycle.

Lemma transition_terminal (maxAttempts : nat) (p : OutgoingPayment) (o : Outcome) :
  isTerminal (state p) = true ->
  transition maxAttempts p o = Some (p, Some AlreadyTerminal).
Proof.
  unfold transition. destruct (state p); cbn; intros Ht; try discriminate Ht; reflexivity.
Qed.

Lemma advance_terminal (maxAttempts : nat) (store : gmap string OutgoingPayment)
    (paymentId : string) (p : OutgoingPayment) (o : Outcome) :
  store !! paymentId = Some p ->
  isTerminal (state p) = true ->
  advance maxAttempts store paymentId o = Some (store, Some AlreadyTerminal).
Proof.
  intros Hget Ht. unfold advance.
  rewrite Hget, (transition_terminal _ _ _ Ht), (insert_id _ _ _ Hget). reflexivity.
Qed.

(** C7: once the stored payment is Completed, Failed or Cancelled, every
    [advance] call on it, whatever the outcome delivered and however many
    follow one another, leaves the store as it is (so the state, the error
    and both amounts of the payment are unchanged) and reports
    AlreadyTerminal. *)
Theorem terminal_is_final (maxAttempts : nat) (store : gmap string OutgoingPayment)
    (paymentId : string) (p : OutgoingPayment)
    (Hget : store !! paymentId = Some p)
    (Hterminal : state p = Completed \/ state p = Failed \/ state p = Cancelled) :
  (forall o : Outcome,
     exists store',
       advance maxAttempts store paymentId o = Some (store', Some AlreadyTerminal) /\
       store' = store /\
       exists p', store' !! paymentId = Some p' /\
         state p' = state p /\ error p' = error p /\
         sendAmount p' = sendAmount p /\ receiveAmount p' = receiveAmount p) /\
  (forall os : list Outcome,
     advanceAll maxAttempts store paymentId os =
       Some (store, map (fun _ => Some AlreadyTerminal) os)).
Proof.
  assert (isTerminal (state p) = true) as Ht
    by (destruct Hterminal as [-> | [-> | ->]]; reflexivity).
  split.
  - intros o. exists store. split; [apply (advance_terminal _ _ _ _ _ Hget Ht)|].
    split; [reflexivity|]. exists p. auto.
  - induction os as [|o os IH]; [reflexivity|].
    cbn [advanceAll map].
    rewrite (advance_terminal _ _ _ _ _ Hget Ht), IH. reflexivity.
Qed.

Lemma terminal_is_final_witness :
  ({[ "p-1" := Samples.settled ]} : gmap string OutgoingPayment) !! "p-1"
    = Some Samples.settled /\
  state Samples.settled = Completed /\
  advance 3 {[ "p-1" := Samples.settled ]} "p-1" (FatalFailure "receiver rejected")
    = Some ({[ "p-1" := Samples.settled ]}, Some AlreadyTerminal) /\
  advanceAll 3 {[ "p-1" := Samples.settled ]} "p-1" [Delivered; CancelRequested]
    = Some ({[ "p-1" := Samples.settled ]}, [Some AlreadyTerminal; Some AlreadyTerminal]).
Proof.
  assert (({[ "p-1" := Samples.settled ]} : gmap string OutgoingPayment) !! "p-1"
          = Some Samples.settled) as Hget by reflexivity.
  split; [exact Hget|]. split; [reflexivity|].
  destruct (terminal_is_final 3 {[ "p-1" := Samples.settled ]} "p-1" Samples.settled
              Hget (or_introl eq_refl)) as [Hone Hall].
  split.
  - destruct (Hone (FatalFailure "receiver rejected")) as (store' & Hadv & -> & _).
    exact Hadv.
  - exact (Hall [Delivered; CancelRequested]).
Defined.

(** Before a terminal state the same calls do change the payment. *)
Example sending_can_still_fail :
  advance 3 {[ "p-1" := moved Samples.settled Sending 0 None None ]} "p-1"
          (FatalFailure "receiver rejected")
  = Some ({[ "p-1" := moved Samples.settled Failed 0 (Some "receiver rejected") None ]},
          None).
Proof.
  unfold advance. rewrite lookup_singleton_eq. cbn [transition state moved].
  rewrite insert_singleton_eq. reflexivity.
Qed.

End LifecycleFacts.


(* ===================================================================== *)
(** ** Properties of the store behind the migrated table *)
(* ===================================================================== *)

Module StoreFacts.
Import Knex Migration Store.

Lemma insert_inv (now : Z) (name : string) (row : gmap string SqlValue)
    (db db' : gmap string TableState) :
  insert now name row db = Ok db' ->
  exists ts,
    db !! name = Some ts /\
    firstUnknown (tdef ts) row = None /\
    firstIllTyped (tdef ts) (completeRow now (tdef ts) row) = None /\
    firstNullViolation (tdef ts) (completeRow now (tdef ts) row) = None /\
    keyTaken (tdef ts) (trows ts) (completeRow now (tdef ts) row) = false /\
    firstBrokenForeign db (tdef ts) (completeRow now (tdef ts) row) = None /\
    db' = <[name := {| tdef := tdef ts;
                       trows := trows ts ++ [completeRow now (tdef ts) row] |}]> db.
Proof.
  unfold insert. destruct (db !! name) as [ts|]; [|discriminate]. cbv zeta.
  destruct (firstUnknown (tdef ts) row) eqn:Hu; [discriminate|].
  destruct (firstIllTyped _ _) eqn:Ht; [discriminate|].
  destruct (firstNullViolation _ _) eqn:Hn; [discriminate|].
  destruct (keyTaken _ _ _) eqn:Hk; [discriminate|].
  destruct (firstBrokenForeign _ _ _) eqn:Hf; [discriminate|].
  intros [= <-]. exists ts. repeat split; assumption || reflexivity.
Qed.

(** Completing a row: one cell per column. *)
Lemma fill_dom (now : Z) (row : gmap string SqlValue) (cols : list ColumnBuilder)
    (m : gmap string SqlValue) :
  dom (fold_left (fun m c => <[colName c := cellValue now row c]> m) cols m)
  = list_to_set (map colName cols) ∪ dom m.
Proof.
  revert m. induction cols as [|c cols IH]; intros m; cbn [fold_left map list_to_set].
  - symmetry. apply (left_id_L ∅ (∪)).
  - rewrite IH, dom_insert_L, (assoc_L (∪)).
    rewrite (comm_L (∪) (list_to_set (map colName cols)) {[colName c]}). reflexivity.
Qed.

Lemma fill_other (now : Z) (row : gmap string SqlValue) (cols : list ColumnBuilder)
    (m : gmap string SqlValue) (k : string) :
  k ∉ map colName cols ->
  fold_left (fun m c => <[colName c := cellValue now row c]> m) cols m !! k = m !! k.
Proof.
  revert m. induction cols as [|c cols IH]; intros m Hk; cbn [fold_left]; [reflexivity|].
  cbn [map] in Hk. apply not_elem_of_cons in Hk as [Hne Hk].
  rewrite IH by exact Hk. apply lookup_insert_ne. congruence.
Qed.

Lemma fill_lookup (now : Z) (row : gmap string SqlValue) (cols : list ColumnBuilder)
    (m : gmap string SqlValue) (c : ColumnBuilder) :
  NoDup (map colName cols) -> c ∈ cols ->
  fold_left (fun m c => <[colName c := cellValue now row c]> m) cols m !! colName c
  = Some (cellValue now row c).
Proof.
  revert m. induction cols as [|c0 cols IH]; intros m Hnd Hin.
  - apply elem_of_nil in Hin. contradiction.
  - cbn [map] in Hnd. apply NoDup_cons in Hnd as [Hfresh Hnd]. cbn [fold_left].
    apply elem_of_cons in Hin as [->|Hin].
    + rewrite fill_other by exact Hfresh. apply lookup_insert_eq.
    + apply IH; assumption.
Qed.

Lemma completeRow_dom (now : Z) (t : Table) (row : gmap string SqlValue) :
  dom (completeRow now t row) = list_to_set (columnNames t).
Proof.
  unfold completeRow, columnNames. rewrite fill_dom, dom_empty_L.
  apply (right_id_L ∅ (∪)).
Qed.

Lemma completeRow_cell (now : Z) (t : Table) (row : gmap string SqlValue) (c : ColumnBuilder) :
  NoDup (columnNames t) -> c ∈ columns t ->
  cellOf (completeRow now t row) (colName c) = cellValue now row c.
Proof.
  intros Hnd Hin. unfold cellOf, completeRow. rewrite (fill_lookup _ _ _ _ _ Hnd Hin).
  reflexivity.
Qed.

Lemma columns_distinct : NoDup (columnNames outgoingPayments).
Proof. apply (bool_decide_unpack _). vm_compute. exact I. Qed.


Lemma find_none_all {A : Type} (f : A -> bool) (l : list A) (x : A) :
  find f l = None -> x ∈ l -> f x = false.
Proof. intros Hnone Hin. apply (find_none f l Hnone). apply list_elem_of_In, Hin. Qed.

Lemma find_not_none {A : Type} (f : A -> bool) (l : list A) (x : A) :
  x ∈ l -> f x = true -> exists y, find f l = Some y.
Proof.
  intros Hin Hfx. destruct (find f l) as [y|] eqn:E; [eauto|].
  rewrite (find_none_all f l x E Hin) in Hfx. discriminate.
Qed.






(** *** The row of a new payment against the checks of [insert] *)

Section NewPayment.
Variables (now : Z) (pid st account asset : string).










End NewPayment.




(** *** Rows in general *)

Lemma required_columns :
  map colName (filter (fun c => requiresValue c = true) (columns outgoingPayments))
  = ["id"; "state"; "stateAttempts"; "accountId"; "assetId"].
Proof. reflexivity. Qed.

Lemma refused_when_null (db : gmap string TableState) (ts : TableState) (now : Z)
    (row : gmap string SqlValue) (c : ColumnBuilder) :
  db !! "outgoingPayments" = Some ts -> tdef ts = outgoingPayments ->
  c ∈ columns outgoingPayments -> requiresValue c = true ->
  cellValue now row c = VNull ->
  exists e, insert now "outgoingPayments" row db = Err e.
Proof.
  intros Hts Hdef Hin Hreq Hnull. unfold insert. rewrite Hts. cbv zeta. rewrite Hdef.
  destruct (firstUnknown _ _); [eauto|].
  destruct (firstIllTyped _ _); [eauto|].
  destruct (find_not_none
              (fun c => requiresValue c &&
                        bool_decide (cellOf (completeRow now outgoingPayments row) (colName c)
                                     = VNull))
              (columns outgoingPayments) c Hin) as [c' Hc'].
  { rewrite Hreq, (completeRow_cell _ _ _ _ columns_distinct Hin), Hnull. reflexivity. }
  unfold firstNullViolation. rewrite Hc'. eauto.
Qed.

Lemma refused_when_ill_typed (db : gmap string TableState) (ts : TableState) (now : Z)
    (row : gmap string SqlValue) (c : ColumnBuilder) :
  db !! "outgoingPayments" = Some ts -> tdef ts = outgoingPayments ->
  c ∈ columns outgoingPayments ->
  fitsType (colType c) (cellValue now row c) = false ->
  exists e, insert now "outgoingPayments" row db = Err e.
Proof.
  intros Hts Hdef Hin Hbad. unfold insert. rewrite Hts. cbv zeta. rewrite Hdef.
  destruct (firstUnknown _ _); [eauto|].
  destruct (find_not_none
              (fun c => negb (fitsType (colType c)
                                (cellOf (completeRow now outgoingPayments row) (colName c))))
              (columns outgoingPayments) c Hin) as [c' Hc'].
  { rewrite (completeRow_cell _ _ _ _ columns_distinct Hin), Hbad. reflexivity. }
  unfold firstIllTyped. rewrite Hc'. eauto.
Qed.

(** A column of the migrated table, by name. *)
Lemma column_named (name : string) (c : ColumnBuilder) :
  findColumn outgoingPayments name = Some c ->
  c ∈ columns outgoingPayments /\ colName c = name.
Proof.
  unfold findColumn. intros Hf. apply find_some in Hf as [Hin Hname].
  split; [apply list_elem_of_In, Hin | apply bool_decide_eq_true in Hname; exact Hname].
Qed.

(** X3: the migrated table refuses any row, whatever else it holds, that
    leaves out or sets to NULL one of id, state, accountId, assetId, or
    that sets stateAttempts to NULL; leaving stateAttempts out is not a
    reason to refuse, its default fills it. *)
Theorem required_cells_enforced (db : gmap string TableState)
    (rows : list (gmap string SqlValue)) (now : Z) (row : gmap string SqlValue)
    (Hmigrated : db !! "outgoingPayments" =
                 Some {| tdef := outgoingPayments; trows := rows |}) :
  (forall k, k ∈ ["id"; "state"; "accountId"; "assetId"] ->
     row !! k = None \/ row !! k = Some VNull ->
     exists e, insert now "outgoingPayments" row db = Err e) /\
  (row !! "stateAttempts" = Some VNull ->
     exists e, insert now "outgoingPayments" row db = Err e) /\
  (row !! "stateAttempts" = None ->
     cellOf (completeRow now outgoingPayments row) "stateAttempts" = VInt 0).
Proof.
  assert (forall k c, findColumn outgoingPayments k = Some c -> requiresValue c = true ->
            cellValue now row c = VNull ->
            exists e, insert now "outgoingPayments" row db = Err e) as Hrefuse.
  { intros k c Hf Hreq Hnull. destruct (column_named _ _ Hf) as [Hin _].
    exact (refused_when_null db _ now row c Hmigrated eq_refl Hin Hreq Hnull). }
  split; [|split].
  - intros k Hk Hmissing.
    repeat (apply elem_of_cons in Hk as [->|Hk]);
      [ | | | | apply elem_of_nil in Hk; contradiction ];
      (match type of Hmissing with
       | row !! ?k = None \/ _ => eapply (Hrefuse k); [reflexivity | reflexivity |]
       end;
       unfold cellValue; cbn;
       destruct Hmissing as [-> | ->]; reflexivity).
  - intros Hnull. eapply (Hrefuse "stateAttempts"); [reflexivity | reflexivity |].
    unfold cellValue; cbn. rewrite Hnull. reflexivity.
  - intros Hnone.
    destruct (column_named "stateAttempts" _ eq_refl) as [Hin _].
    refine (eq_trans (completeRow_cell now _ row _ columns_distinct Hin) _).
    unfold cellValue; cbn. rewrite Hnone. reflexivity.
Qed.


Lemma completeRow_lookup (now : Z) (row : gmap string SqlValue) (c : ColumnBuilder) :
  c ∈ columns outgoingPayments ->
  completeRow now outgoingPayments row !! colName c = Some (cellValue now row c).
Proof. intros Hin. apply fill_lookup; [exact columns_distinct | exact Hin]. Qed.

Lemma known_keys (t : Table) (row : gmap string SqlValue) (k : string) (v : SqlValue) :
  firstUnknown t row = None -> row !! k = Some v -> k ∈ columnNames t.
Proof.
  intros Hnone Hk. unfold firstUnknown in Hnone.
  assert (k ∈ map fst (map_to_list row)) as Hin.
  { apply list_elem_of_In, in_map_iff. exists (k, v). split; [reflexivity|].
    apply list_elem_of_In, elem_of_map_to_list, Hk. }
  pose proof (find_none_all _ _ _ Hnone Hin) as Hdec.
  apply bool_decide_eq_false in Hdec. apply dec_stable in Hdec. exact Hdec.
Qed.

Lemma column_of_name (t : Table) (k : string) :
  k ∈ columnNames t -> exists c, c ∈ columns t /\ colName c = k.
Proof.
  unfold columnNames. intros Hin. apply list_elem_of_In, in_map_iff in Hin as (c & Hc & Hin).
  exists c. split; [apply list_elem_of_In, Hin | exact Hc].
Qed.

(** X4: an accepted insert adds exactly one row to the table and leaves
    the definition alone; the stored row has a cell for each column of the
    migration and no other, keeps every value that was given, and fills
    what was left out: stateAttempts with 0, createdAt and updatedAt with
    the time of the insert, every column without a default with NULL. *)
Theorem accepted_row_shape (db db' : gmap string TableState)
    (rows : list (gmap string SqlValue)) (now : Z) (row : gmap string SqlValue)
    (Hmigrated : db !! "outgoingPayments" =
                 Some {| tdef := outgoingPayments; trows := rows |})
    (Haccepted : insert now "outgoingPayments" row db = Ok db') :
  exists r,
    db' = <["outgoingPayments" := {| tdef := outgoingPayments; trows := rows ++ [r] |}]> db /\
    dom r = list_to_set (columnNames outgoingPayments) /\
    (forall k v, row !! k = Some v -> r !! k = Some v) /\
    (row !! "stateAttempts" = None -> r !! "stateAttempts" = Some (VInt 0)) /\
    (row !! "createdAt" = None -> r !! "createdAt" = Some (VTime now)) /\
    (row !! "updatedAt" = None -> r !! "updatedAt" = Some (VTime now)) /\
    (forall c, c ∈ columns outgoingPayments -> colDefault c = None ->
       row !! colName c = None -> r !! colName c = Some VNull).
Proof.
  apply insert_inv in Haccepted as (ts & Hts & Hknown & _ & _ & _ & _ & ->).
  rewrite Hmigrated in Hts. injection Hts as <-. cbn [tdef trows] in *.
  exists (completeRow now outgoingPayments row).
  split; [reflexivity|]. split; [apply completeRow_dom|].
  assert (forall name c, findColumn outgoingPayments name = Some c ->
            completeRow now outgoingPayments row !! name = Some (cellValue now row c)) as Hcell.
  { intros name c Hf. destruct (column_named _ _ Hf) as [Hin <-].
    apply completeRow_lookup, Hin. }
  split; [|split; [|split; [|split]]].
  - intros k v Hk.
    destruct (column_of_name _ _ (known_keys _ _ _ _ Hknown Hk)) as (c & Hin & <-).
    rewrite (completeRow_lookup _ _ _ Hin). unfold cellValue. rewrite Hk. reflexivity.
  - intros Hnone. rewrite (Hcell "stateAttempts" _ eq_refl).
    unfold cellValue; cbn. rewrite Hnone. reflexivity.
  - intros Hnone. rewrite (Hcell "createdAt" _ eq_refl).
    unfold cellValue; cbn. rewrite Hnone. reflexivity.
  - intros Hnone. rewrite (Hcell "updatedAt" _ eq_refl).
    unfold cellValue; cbn. rewrite Hnone. reflexivity.
  - intros c Hin Hdef Hnone. rewrite (completeRow_lookup _ _ _ Hin).
    unfold cellValue. rewrite Hnone, Hdef. reflexivity.
Qed.






(** *** What a history of inserts keeps *)






(** *** Running the migration again *)




(** *** The statements on the sample store *)

Lemma sample_migrated :
  StoreSamples.migratedDb !! "outgoingPayments"
  = Some {| tdef := outgoingPayments; trows := [] |}.
Proof. apply lookup_insert_eq. Qed.

Lemma sample_first :
  insert 1635251145 "outgoingPayments" StoreSamples.firstPayment StoreSamples.migratedDb
  = Ok StoreSamples.afterFirst.
Proof. vm_compute. reflexivity. Qed.






Lemma required_cells_enforced_witness :
  delete "state" StoreSamples.firstPayment !! "state" = None /\
  exists e, insert 1635251145 "outgoingPayments" (delete "state" StoreSamples.firstPayment)
              StoreSamples.migratedDb = Err e.
Proof.
  assert (delete "state" StoreSamples.firstPayment !! "state" = None) as Hnone
    by apply lookup_delete_eq.
  split; [exact Hnone|].
  apply (proj1 (required_cells_enforced _ _ 1635251145
                  (delete "state" StoreSamples.firstPayment) sample_migrated) "state").
  - apply list_elem_of_further, list_elem_of_here.
  - left. exact Hnone.
Defined.

Lemma accepted_row_shape_witness :
  exists r,
    StoreSamples.afterFirst
    = <["outgoingPayments" := {| tdef := outgoingPayments; trows := [] ++ [r] |}]>
        StoreSamples.migratedDb /\
    r !! "state" = Some (VStr "Pending") /\
    r !! "stateAttempts" = Some (VInt 0) /\
    r !! "createdAt" = Some (VTime 1635251145).
Proof.
  destruct (accepted_row_shape _ _ _ _ _ sample_migrated sample_first)
    as (r & Hdb & _ & Hkept & Hattempts & Hcreated & _).
  exists r. split; [exact Hdb|].
  split; [apply Hkept; reflexivity|].
  split; [apply Hattempts; reflexivity | apply Hcreated; reflexivity].
Defined.




End StoreFacts.

(* ===================================================================== *)
(** ** Further properties of the route handlers *)
(* ===================================================================== *)

Module HandlerFacts.
Import Route.

(** *** [Object.fromEntries] *)

Lemma fromEntries_fold {V : Type} (entries : list (string * V)) (o : gmap string V)
    (k : string) :
  fold_left (fun o e => <[fst e := snd e]> o) entries o !! k =
  match fromEntries entries !! k with
  | Some v => Some v
  | None => o !! k
  end.
Proof.
  unfold fromEntries. revert o. induction entries as [|[a b] entries IH]; intros o.
  - cbn [fold_left]. rewrite lookup_empty. reflexivity.
  - cbn [fold_left fst snd]. rewrite (IH (<[a:=b]> o)), (IH (<[a:=b]> ∅)).
    destruct (fold_left _ entries ∅ !! k) as [v|]; [reflexivity|].
    destruct (decide (a = k)) as [->|Hne].
    + rewrite !lookup_insert_eq. reflexivity.
    + rewrite !lookup_insert_ne by exact Hne. rewrite lookup_empty. reflexivity.
Qed.

Lemma fromEntries_app {V : Type} (before after : list (string * V)) (k : string) :
  fromEntries (before ++ after) !! k =
  match fromEntries after !! k with
  | Some v => Some v
  | None => fromEntries before !! k
  end.
Proof.
  unfold fromEntries at 1. rewrite fold_left_app. apply fromEntries_fold.
Qed.

Lemma fromEntries_absent {V : Type} (entries : list (string * V)) (k : string) :
  fromEntries entries !! k = None <-> k ∉ map fst entries.
Proof.
  induction entries as [|[a b] entries IH] using rev_ind.
  - cbn. split; [intros _; apply not_elem_of_nil | reflexivity].
  - rewrite fromEntries_app, map_app, not_elem_of_app. cbn [map fst].
    unfold fromEntries at 1. cbn [fold_left fst snd].
    destruct (decide (a = k)) as [->|Hne].
    + rewrite lookup_insert_eq. split; [discriminate|].
      intros [_ Hk]. exfalso. apply Hk, list_elem_of_here.
    + rewrite lookup_insert_ne by exact Hne. rewrite lookup_empty, IH.
      split; [|intros [Hk _]; exact Hk].
      intros Hk. split; [exact Hk|].
      intros Hin. apply list_elem_of_singleton in Hin. congruence.
Qed.

Section WithBackend.
Context `{Collaborators}.
Context {W : Type} (h : Backend W).

(** X8: when a form names a field more than once, the action validates
    the last value given: of two lists of entries the later one decides
    each field it names, a field is absent exactly when no entry names it,
    and an entry whose field is named again further on changes nothing for
    the action. *)
Theorem action_reads_last_values (cookies : gmap string string)
    (before after : list (string * FormDataEntryValue)) (k : string)
    (v : FormDataEntryValue) :
  (fromEntries (before ++ after) !! k =
     match fromEntries after !! k with
     | Some v' => Some v'
     | None => fromEntries before !! k
     end) /\
  (fromEntries after !! k = None <-> k ∉ map fst after) /\
  (k ∈ map fst after ->
   action {| headers := cookies; formData := before ++ (k, v) :: after |} =
   action {| headers := cookies; formData := before ++ after |}).
Proof.
  split; [apply fromEntries_app|]. split; [apply fromEntries_absent|].
  intros Hin. unfold action. cbn [formData headers].
  assert (fromEntries (before ++ (k, v) :: after) = fromEntries (before ++ after)) as ->;
    [|reflexivity].
  apply map_eq. intros j.
  change ((k, v) :: after) with ([(k, v)] ++ after)%list.
  rewrite !fromEntries_app.
  destruct (fromEntries after !! j) as [x|] eqn:Hafter; [reflexivity|].
  unfold fromEntries at 1. cbn [fold_left fst snd].
  destruct (decide (k = j)) as [->|Hne].
  - apply fromEntries_absent in Hafter. contradiction.
  - rewrite lookup_insert_ne by exact Hne. rewrite lookup_empty. reflexivity.
Qed.

(** *** Runs of the two handlers, call by call *)

Lemma loader_run (w : W) (params : gmap string string) :
  run h (loader params) w =
  match safeParseUuid (params !! "paymentPointerId") with
  | None => (Thrown (json JNull 400 "Invalid payment pointer ID."), w, [])
  | Some data =>
      (match fst (h _ (getPaymentPointer data) w) with
       | None => Thrown (json JNull 404 "Payment pointer not found.")
       | Some pp =>
           Returned (json
             (JObj {[ "paymentPointer" :=
                JObj (<["createdAt" := JStr (toLocaleString (getProp pp "createdAt"))]> pp) ]})
             200 "")
       end,
       snd (h _ (getPaymentPointer data) w),
       [CallOf (getPaymentPointer data)])
  end.
Proof.
  unfold loader. destruct (safeParseUuid (params !! "paymentPointerId")) as [data|];
    [|reflexivity].
  rewrite RouteFacts.run_await.
  destruct (h _ (getPaymentPointer data) w) as [[pp|] w1]; reflexivity.
Qed.

Lemma action_run (w : W) (request : Request) :
  run h (action request) w =
  match updatePaymentPointerSchema (fromEntries (formData request)) with
  | Err error =>
      (Returned (JsonResponse (json
         {| errors := {| fieldErrors := flattenFieldErrors error;
                         errorMessage := [] |} |} 400 "")), w, [])
  | Ok data =>
      let response := fst (h _ (updatePaymentPointer data) w) in
      let w1 := snd (h _ (updatePaymentPointer data) w) in
      if notSuccess response then
        (Returned (JsonResponse (json
           {| errors := {| fieldErrors := ∅;
                           errorMessage :=
                             [messageOr response
                                "Could not update the payment pointer. Please try again!"] |} |}
           400 "")), w1, [CallOf (updatePaymentPointer data)])
      else
        let session := fst (h _ (getSession (headers request !! "cookie")) w1) in
        let w2 := snd (h _ (getSession (headers request !! "cookie")) w1) in
        let redirect :=
          setMessageAndRedirect session
            {| content := "Payment pointer was updated"; type := "success" |} "." in
        (Returned (Redirected (fst (h _ redirect w2))), snd (h _ redirect w2),
         [CallOf (updatePaymentPointer data);
          CallOf (getSession (headers request !! "cookie"));
          CallOf redirect])
  end.
Proof.
  unfold action.
  destruct (updatePaymentPointerSchema (fromEntries (formData request))) as [data|error];
    [|reflexivity].
  rewrite RouteFacts.run_await. cbv zeta.
  destruct (notSuccess (fst (h _ (updatePaymentPointer data) w))); [reflexivity|].
  rewrite !RouteFacts.run_await. reflexivity.
Qed.


(** X10: the pointer the loader returns has the properties of the pointer
    looked up and a createdAt, nothing else; a pointer that came without a
    createdAt gets one all the same, the locale string of [undefined]. *)
Theorem loader_keeps_keys (w : W) (params : gmap string string) (data : string)
    (pp : gmap string Json)
    (Hparam : params !! "paymentPointerId" = Some data)
    (Huuid : isUuid data = true)
    (Hfound : fst (h _ (getPaymentPointer data) w) = Some pp) :
  exists shown,
    outcomeOf h (loader params) w =
      Returned (json (JObj {[ "paymentPointer" := JObj shown ]}) 200 "") /\
    dom shown = {[ "createdAt" ]} ∪ dom pp /\
    delete "createdAt" shown = delete "createdAt" pp /\
    (exists text, shown !! "createdAt" = Some (JStr text)) /\
    (pp !! "createdAt" = None ->
     shown = <["createdAt" := JStr (toLocaleString JUndefined)]> pp).
Proof.
  assert (safeParseUuid (params !! "paymentPointerId") = Some data) as Hparse
    by (apply RouteFacts.safeParseUuid_Some; auto).
  unfold outcomeOf. rewrite loader_run, Hparse, Hfound. cbn [fst].
  eexists. split; [reflexivity|].
  split; [apply dom_insert_L|]. split; [apply delete_insert_eq|].
  split; [eexists; apply lookup_insert_eq|].
  intros Hnone. unfold getProp. rewrite Hnone. reflexivity.
Qed.

(** X11: when the schema accepts the form but the update does not answer
    with success, the action returns 400 with no field errors and a single
    message, the one the update gave or, when the update gave no answer or
    no message, 'Could not update the payment pointer. Please try again!';
    it has made the one update call and none for the session. *)
Theorem update_failure_reported (w : W) (request : Request) (data : UpdateInput)
    (Haccepted : updatePaymentPointerSchema (fromEntries (formData request)) = Ok data)
    (Hfailed : forall r, fst (h _ (updatePaymentPointer data) w) = Some r ->
                         success r = false) :
  run h (action request) w =
    (Returned (JsonResponse (json
       {| errors :=
            {| fieldErrors := ∅;
               errorMessage :=
                 [match fst (h _ (updatePaymentPointer data) w) with
                  | Some {| message := Some text |} => text
                  | _ => "Could not update the payment pointer. Please try again!"
                  end] |} |} 400 "")),
     snd (h _ (updatePaymentPointer data) w),
     [CallOf (updatePaymentPointer data)]).
Proof.
  rewrite action_run, Haccepted. cbv zeta.
  destruct (fst (h _ (updatePaymentPointer data) w)) as [[ok text]|] eqn:Hanswer.
  - specialize (Hfailed _ eq_refl). cbn [success] in Hfailed. subst ok.
    cbn [notSuccess success negb messageOr message]. destruct text; reflexivity.
  - reflexivity.
Qed.


End WithBackend.

(** *** The statements on the sample backend *)

Lemma action_reads_last_values_witness :
  "status" ∈ map fst [("status", EntryString "INACTIVE")] /\
  @action Samples.sampleCollaborators
    {| headers := ∅;
       formData := [("id", EntryString Samples.pointerId)]
                     ++ ("status", EntryString "ACTIVE")
                     :: [("status", EntryString "INACTIVE")] |} =
  @action Samples.sampleCollaborators
    {| headers := ∅;
       formData := [("id", EntryString Samples.pointerId)]
                     ++ [("status", EntryString "INACTIVE")] |}.
Proof.
  assert ("status" ∈ map fst [("status", EntryString "INACTIVE")]) as Hin
    by apply list_elem_of_here.
  split; [exact Hin|].
  exact (proj2 (proj2 (@action_reads_last_values Samples.sampleCollaborators ∅
                         [("id", EntryString Samples.pointerId)]
                         [("status", EntryString "INACTIVE")] "status"
                         (EntryString "ACTIVE"))) Hin).
Defined.

(** A backend that knows the sample pointer without its createdAt. *)
Lemma loader_keeps_keys_witness :
  exists shown,
    outcomeOf Samples.sampleBackend
      (@loader Samples.sampleCollaborators {[ "paymentPointerId" := Samples.pointerId ]})
      {[ Samples.pointerId := delete "createdAt" Samples.pointer ]}
    = Returned (json (JObj {[ "paymentPointer" := JObj shown ]}) 200 "") /\
    shown = <["createdAt" := JStr "Invalid Date"]> (delete "createdAt" Samples.pointer).
Proof.
  assert (({[ "paymentPointerId" := Samples.pointerId ]} : gmap string string)
            !! "paymentPointerId" = Some Samples.pointerId) as Hparam by reflexivity.
  assert (@isUuid Samples.sampleCollaborators Samples.pointerId = true) as Huuid
    by reflexivity.
  assert (fst (Samples.sampleBackend _ (getPaymentPointer Samples.pointerId)
                 {[ Samples.pointerId := delete "createdAt" Samples.pointer ]})
          = Some (delete "createdAt" Samples.pointer)) as Hfound by reflexivity.
  destruct (@loader_keeps_keys Samples.sampleCollaborators _ Samples.sampleBackend
              _ _ _ _ Hparam Huuid Hfound) as (shown & Hout & _ & _ & _ & Hmissing).
  exists shown. split; [exact Hout|]. apply Hmissing. apply lookup_delete_eq.
Defined.

(** The sample backend knows no pointer: the update answers 'unknown'. *)
Lemma update_failure_reported_witness :
  run Samples.sampleBackend (@action Samples.sampleCollaborators Samples.acceptedForm) ∅ =
    (Returned (JsonResponse (json
       {| errors := {| fieldErrors := ∅; errorMessage := ["unknown"] |} |} 400 "")),
     ∅,
     [CallOf (@updatePaymentPointer Samples.sampleCollaborators
                (fromEntries (formData Samples.acceptedForm)))]).
Proof.
  assert (@updatePaymentPointerSchema Samples.sampleCollaborators
            (fromEntries (formData Samples.acceptedForm))
          = Ok (fromEntries (formData Samples.acceptedForm))) as Haccepted by reflexivity.
  assert (forall r,
            fst (Samples.sampleBackend _
                   (@updatePaymentPointer Samples.sampleCollaborators
                      (fromEntries (formData Samples.acceptedForm))) ∅) = Some r ->
            success r = false) as Hfailed.
  { intros r Hr. vm_compute in Hr. injection Hr as <-. reflexivity. }
  exact (@update_failure_reported Samples.sampleCollaborators _ Samples.sampleBackend ∅
           Samples.acceptedForm _ Haccepted Hfailed).
Defined.


End HandlerFacts.

(* ===================================================================== *)
(** ** Properties of the page *)
(* ===================================================================== *)

Module PageFacts.
Import Route Page.

Section WithHost.
Context `{Host}.

Lemma member_read (v : Json) (k : string) :
  member v k = if nullish v then Err TypeError else Ok (read v k).
Proof. destruct v; reflexivity. Qed.



(** The page either throws or is the markup over the values read. *)
Lemma page_run (loaderData : Json) (response : option ActionResponse)
    (navigationState : string) :
  ViewAssetPage loaderData response navigationState =
  if nullish loaderData
     || nullish (read loaderData "paymentPointer")
     || nullish (read (read loaderData "paymentPointer") "asset")
  then Err TypeError
  else
    let paymentPointer := read loaderData "paymentPointer" in
    let asset := read paymentPointer "asset" in
    Ok (markup (bool_decide (navigationState = "submitting")) response
               (read paymentPointer "createdAt") (read paymentPointer "id")
               (read paymentPointer "url") (read paymentPointer "publicName")
               (read paymentPointer "status") (read asset "code") (read asset "scale")
               (read asset "withdrawalThreshold") (read asset "id")).
Proof.
  unfold ViewAssetPage. rewrite member_read.
  destruct (nullish loaderData); [reflexivity|]. cbn [andThen orb].
  destruct (nullish (read loaderData "paymentPointer")) eqn:Hpointer;
    [rewrite member_read, Hpointer; reflexivity|].
  do 6 (rewrite member_read, Hpointer; cbn [andThen]). cbn [orb].
  destruct (nullish (read (read loaderData "paymentPointer") "asset")) eqn:Hasset;
    [rewrite member_read, Hasset; reflexivity|].
  do 4 (rewrite member_read, Hasset; cbn [andThen]). reflexivity.
Qed.


(** The markup as far as the form and the error slots go. *)
Lemma markup_form (isSubmitting : bool) (response : option ActionResponse)
    (createdAt id url publicName status code scale withdrawalThreshold assetId : Json) :
  let tree := markup isSubmitting response createdAt id url publicName status
                     code scale withdrawalThreshold assetId in
  map fst (named tree) = ["id"; "publicName"; "status"] /\
  map (fun n => (prop n "method", map fst (named n))) (tagged "Form" tree)
    = [(Some (JStr "post"), ["id"; "publicName"; "status"])] /\
  map (fun n => (prop n "disabled", map fst (named n), map childrenOf (submitButtons n)))
      (tagged "fieldset" tree)
    = [(Some (JBool isSubmitting), ["id"; "publicName"; "status"],
        [[Value (JStr (if isSubmitting then "Saving ..." else "Save"))]])] /\
  map childrenOf (submitButtons tree)
    = [[Value (JStr (if isSubmitting then "Saving ..." else "Save"))]] /\
  field tree "id"
    = Some (Element "Input" [("type", JStr "hidden"); ("name", JStr "id"); ("value", id)] []).
Proof. repeat split; vm_compute; reflexivity. Qed.

Lemma markup_errors (isSubmitting : bool) (response : option ActionResponse)
    (createdAt id url publicName status code scale withdrawalThreshold assetId : Json) :
  shownErrors (markup isSubmitting response createdAt id url publicName status
                      code scale withdrawalThreshold assetId)
  = ([Some (responseMessages response)],
     Some (responseFieldError response "publicName"),
     Some (responseFieldError response "status")).
Proof. reflexivity. Qed.

Lemma page_markup (loaderData : Json) (response : option ActionResponse)
    (navigationState : string) (tree : Node) :
  ViewAssetPage loaderData response navigationState = Ok tree ->
  exists createdAt id url publicName status code scale withdrawalThreshold assetId,
    id = read (read loaderData "paymentPointer") "id" /\
    tree = markup (bool_decide (navigationState = "submitting")) response
                  createdAt id url publicName status code scale withdrawalThreshold assetId.
Proof.
  rewrite page_run. destruct (_ || _); [discriminate|]. cbv zeta. intros [= <-].
  do 9 eexists. split; reflexivity.
Qed.

(** X14: whenever the page renders, it holds one form, posted, whose one
    fieldset contains every named field and the only submit button; the
    named fields are id, publicName and status, in that order, id being a
    hidden input with the pointer's id as value; the fieldset is disabled
    and the button reads 'Saving ...' exactly while the navigation state is
    'submitting', else the button reads 'Save'. *)
Theorem form_fields (loaderData : Json) (response : option ActionResponse)
    (navigationState : string) (tree : Node)
    (Hrendered : ViewAssetPage loaderData response navigationState = Ok tree) :
  let submitting := bool_decide (navigationState = "submitting") in
  map fst (named tree) = ["id"; "publicName"; "status"] /\
  map (fun n => (prop n "method", map fst (named n))) (tagged "Form" tree)
    = [(Some (JStr "post"), ["id"; "publicName"; "status"])] /\
  map (fun n => (prop n "disabled", map fst (named n), map childrenOf (submitButtons n)))
      (tagged "fieldset" tree)
    = [(Some (JBool submitting), ["id"; "publicName"; "status"],
        [[Value (JStr (if submitting then "Saving ..." else "Save"))]])] /\
  map childrenOf (submitButtons tree)
    = [[Value (JStr (if submitting then "Saving ..." else "Save"))]] /\
  field tree "id"
    = Some (Element "Input"
              [("type", JStr "hidden"); ("name", JStr "id");
               ("value", read (read loaderData "paymentPointer") "id")] []).
Proof.
  destruct (page_markup _ _ _ _ Hrendered)
    as (createdAt & id & url & publicName & status & code & scale & threshold & assetId
        & -> & ->).
  apply markup_form.
Qed.

(** X15: the page shows a submission's errors where they belong.  Before
    any submission nothing is shown.  After a submission the schema
    rejected, the panel gets an empty list and the publicName and status
    fields get the messages the schema gave for them.  After a submission
    the update did not accept, the panel gets the one message of the
    action's answer and the fields get none. *)
Theorem submission_errors_shown `{Collaborators} {W : Type} (h : Backend W) (w : W)
    (request : Request) (loaderData : Json) (navigationState : string) :
  (forall tree, ViewAssetPage loaderData None navigationState = Ok tree ->
     shownErrors tree = ([Some JUndefined], Some JUndefined, Some JUndefined)) /\
  (forall error r tree,
     updatePaymentPointerSchema (fromEntries (formData request)) = Err error ->
     outcomeOf h (action request) w = Returned (JsonResponse r) ->
     ViewAssetPage loaderData (Some (body r)) navigationState = Ok tree ->
     shownErrors tree =
       ([Some (strings [])],
        Some (from_option strings JUndefined (flattenFieldErrors error !! "publicName")),
        Some (from_option strings JUndefined (flattenFieldErrors error !! "status")))) /\
  (forall data r tree,
     updatePaymentPointerSchema (fromEntries (formData request)) = Ok data ->
     outcomeOf h (action request) w = Returned (JsonResponse r) ->
     ViewAssetPage loaderData (Some (body r)) navigationState = Ok tree ->
     shownErrors tree =
       ([Some (strings [messageOr (fst (h _ (updatePaymentPointer data) w))
                          "Could not update the payment pointer. Please try again!"])],
        Some JUndefined, Some JUndefined)).
Proof.
  split; [|split].
  - intros tree Hok.
    destruct (page_markup _ _ _ _ Hok) as (? & ? & ? & ? & ? & ? & ? & ? & ? & _ & ->).
    apply markup_errors.
  - intros error r tree Hparse Hout Hok. unfold outcomeOf in Hout.
    rewrite HandlerFacts.action_run, Hparse in Hout. cbn [fst] in Hout.
    injection Hout as <-.
    destruct (page_markup _ _ _ _ Hok) as (? & ? & ? & ? & ? & ? & ? & ? & ? & _ & ->).
    rewrite markup_errors. cbn.
    destruct (flattenFieldErrors error !! "publicName"),
             (flattenFieldErrors error !! "status"); reflexivity.
  - intros data r tree Hparse Hout Hok. unfold outcomeOf in Hout.
    rewrite HandlerFacts.action_run, Hparse in Hout. cbv zeta in Hout.
    destruct (notSuccess (fst (h _ (updatePaymentPointer data) w)));
      cbn [fst] in Hout; [|discriminate Hout].
    injection Hout as <-.
    destruct (page_markup _ _ _ _ Hok) as (? & ? & ? & ? & ? & ? & ? & ? & ? & _ & ->).
    rewrite markup_errors. cbn. rewrite !lookup_empty. reflexivity.
Qed.

End WithHost.

(** *** The statements on the sample pointer *)


Lemma form_fields_witness :
  exists tree,
    @ViewAssetPage PageSamples.sampleHost PageSamples.loaderData None "submitting" = Ok tree /\
    map fst (named tree) = ["id"; "publicName"; "status"] /\
    map childrenOf (submitButtons tree) = [[Value (JStr "Saving ...")]] /\
    field tree "id"
      = Some (Element "Input"
                [("type", JStr "hidden"); ("name", JStr "id");
                 ("value", JStr Samples.pointerId)] []).
Proof.
  destruct (@ViewAssetPage PageSamples.sampleHost PageSamples.loaderData None "submitting")
    as [tree|e] eqn:Hrendered; [|vm_compute in Hrendered; discriminate Hrendered].
  exists tree. split; [reflexivity|].
  destruct (@form_fields PageSamples.sampleHost _ _ _ _ Hrendered)
    as (Hnames & _ & _ & Hsubmit & Hid).
  split; [exact Hnames|]. split; [exact Hsubmit | exact Hid].
Defined.

Lemma submission_errors_shown_witness :
  exists tree,
    @ViewAssetPage PageSamples.sampleHost PageSamples.loaderData
       (Some PageSamples.rejection) "idle" = Ok tree /\
    shownErrors tree = ([Some (strings [])], Some JUndefined, Some (strings ["Required"])).
Proof.
  destruct (@ViewAssetPage PageSamples.sampleHost PageSamples.loaderData
              (Some PageSamples.rejection) "idle")
    as [tree|e] eqn:Hrendered; [|vm_compute in Hrendered; discriminate Hrendered].
  exists tree. split; [reflexivity|].
  exact (proj1 (proj2 (@submission_errors_shown PageSamples.sampleHost
                         Samples.sampleCollaborators _ Samples.sampleBackend
                         Samples.pointers Samples.rejectedForm
                         PageSamples.loaderData "idle"))
           "status" (json PageSamples.rejection 400 "") tree eq_refl eq_refl Hrendered).
Defined.

End PageFacts.
